(** * Macro target calculator: [backend/app/services/macros.py]

    A shallow embedding of the macro calculation module and the
    properties its specification states about it.

    Number model.  The Python code computes on [float] and [int].  The
    module is embedded twice.

    - The exact reading: a [float] is the rational it denotes ([Q],
      compared with [==]), an [int] is [Z], the decimal literals of the
      source ([0.453592], [1.375], ...) are the decimal fractions they
      spell, [int]-by-[float] arithmetic promotes the [int] with
      [inject_Z], and the builtin [round] is round-half-to-even on the
      exact value.  General theorems are proved on this reading; it
      knows no binary rounding error, no infinity and no NaN, so only
      statements that survive binary64 rounding (selections,
      orderings, bounds with room to spare) are drawn from it.

    - The binary64 reading ([Module Binary64]): a [float] is an IEEE
      754 double, the literals are the doubles nearest to them, every
      operation rounds as the machine does, an [int] too large for a
      double and [round] of an infinity raise [OverflowError].  It
      computes what CPython computes and is used to evaluate the code
      on concrete inputs, among them the inputs on which the two
      readings part. *)

From Stdlib Require Import ZArith QArith Qround Qminmax Qabs Lqa Lia Bool.
From Stdlib Require Import Ascii.
From Stdlib Require Import Floats.
From stdpp Require Import base option strings gmap.

Local Open Scope Z_scope.
Local Open Scope Q_scope.

(** ** Module constants *)

Module Constants.

(** Activity multipliers (BMR multipliers). *)
Definition ACTIVITY_SEDENTARY : Q := 1.2.
Definition ACTIVITY_LIGHT : Q := 1.375.
Definition ACTIVITY_MODERATE : Q := 1.55.
Definition ACTIVITY_ACTIVE : Q := 1.725.
Definition ACTIVITY_VERY_ACTIVE : Q := 1.9.

(** Goal adjustments (calorie multipliers). *)
Definition GOAL_LOSE_WEIGHT : Q := -0.20.
Definition GOAL_BUILD_MUSCLE : Q := 0.10.
Definition GOAL_MAINTAIN : Q := 0.0.
Definition GOAL_IMPROVE_ENDURANCE : Q := 0.05.
Definition GOAL_GENERAL_FITNESS : Q := 0.0.

(** Protein ranges (g per lb bodyweight). *)
Definition PROTEIN_MIN : Q := 0.8.
Definition PROTEIN_MAINTENANCE : Q := 0.8.
Definition PROTEIN_LOSE_WEIGHT : Q := 1.0.
Definition PROTEIN_BUILD_MUSCLE : Q := 1.2.
Definition PROTEIN_ENDURANCE : Q := 0.9.
Definition PROTEIN_GENERAL : Q := 0.8.

(** Fat constants. *)
Definition FAT_PERCENT_MIN : Q := 0.20.
Definition FAT_PERCENT_MAX : Q := 0.30.
Definition FAT_MIN_PER_LB : Q := 0.3.

(** Calories per gram (Python [int]s). *)
Definition CALORIES_PER_GRAM_PROTEIN : Z := 4.
Definition CALORIES_PER_GRAM_CARB : Z := 4.
Definition CALORIES_PER_GRAM_FAT : Z := 9.

End Constants.
Import Constants.

(** ** Python builtins used by the module *)

Module Py.

(** [a < b] on floats, as a boolean. *)
Definition ltb (a b : Q) : bool :=
  match a ?= b with Lt => true | _ => false end.

(** [max(a, b)]: the first argument unless the second is strictly
    greater. *)
Definition max (a b : Q) : Q := if ltb a b then b else a.

(** [min(a, b)]: the first argument unless the second is strictly
    smaller. *)
Definition min (a b : Q) : Q := if ltb b a then b else a.

(** [round(x)]: the nearest integer, a tie going to the even one. *)
Definition round (x : Q) : Z :=
  let f := Qfloor x in
  match (x - inject_Z f ?= 1 # 2)%Q with
  | Lt => f
  | Gt => (f + 1)%Z
  | Eq => if Z.even f then f else (f + 1)%Z
  end.

(** [round(x, 1)]: the nearest multiple of one tenth, same tie rule. *)
Definition round1 (x : Q) : Q := inject_Z (round (x * 10)) / 10.

(** [d.get(k, default)] on a dict with string keys. *)
Definition get {V} (d : gmap string V) (k : string) (dflt : V) : V :=
  default dflt (d !! k).

End Py.

(** ** The functions of the module *)

(** Basal Metabolic Rate by the Mifflin-St Jeor equation. *)
Definition calculate_bmr_mifflin_st_jeor
    (weight_lbs : Q) (height_inches : Z) (age : Z) (is_male : bool) : Q :=
  let weight_kg := weight_lbs * 0.453592 in
  let height_cm := inject_Z height_inches * 2.54 in
  if is_male
  then (10 * weight_kg) + (6.25 * height_cm) - inject_Z (5 * age) + 5
  else (10 * weight_kg) + (6.25 * height_cm) - inject_Z (5 * age) - 161.

(** Activity multiplier from the number of training days per week. *)
Definition get_activity_multiplier (training_days_per_week : Z) : Q :=
  if (training_days_per_week =? 0)%Z then ACTIVITY_SEDENTARY
  else if (training_days_per_week <=? 2)%Z then ACTIVITY_LIGHT
  else if (training_days_per_week <=? 4)%Z then ACTIVITY_MODERATE
  else if (training_days_per_week <=? 6)%Z then ACTIVITY_ACTIVE
  else ACTIVITY_VERY_ACTIVE.

(** The dict literal of [get_goal_adjustment]. *)
Definition goal_adjustment_map : gmap string Q :=
  list_to_map
    [ ("lose_weight", GOAL_LOSE_WEIGHT);
      ("build_muscle", GOAL_BUILD_MUSCLE);
      ("maintain", GOAL_MAINTAIN);
      ("improve_endurance", GOAL_IMPROVE_ENDURANCE);
      ("general_fitness", GOAL_GENERAL_FITNESS) ].

(** Calorie adjustment multiplier of a goal. *)
Definition get_goal_adjustment (goal : string) : Q :=
  Py.get goal_adjustment_map goal GOAL_MAINTAIN.

(** The dict literal of [get_protein_per_lb]. *)
Definition protein_per_lb_map : gmap string Q :=
  list_to_map
    [ ("lose_weight", PROTEIN_LOSE_WEIGHT);
      ("build_muscle", PROTEIN_BUILD_MUSCLE);
      ("maintain", PROTEIN_MAINTENANCE);
      ("improve_endurance", PROTEIN_ENDURANCE);
      ("general_fitness", PROTEIN_GENERAL) ].

(** Protein grams per pound of bodyweight of a goal. *)
Definition get_protein_per_lb (goal : string) : Q :=
  Py.get protein_per_lb_map goal PROTEIN_MIN.

(** The local variables of [calculate_macros] as they stand at its
    [return] statement.  [fat_g], [fat_calories] and [carbs_g] hold
    their last assignment; the others are assigned once, except
    [fat_target_calories], whose second assignment (the [min]) is the
    one recorded. *)
Module Frame.
Record t := Make {
  bmr : Q;
  activity_mult : Q;
  maintenance_calories : Q;
  goal_adj : Q;
  target_calories : Q;
  protein_per_lb : Q;
  protein_g : Q;
  protein_calories : Q;
  fat_min_g : Q;
  fat_min_calories : Q;
  fat_max_calories : Q;
  fat_min_calories_from_percent : Q;
  fat_target_calories : Q;
  remaining_calories : Q;
  carbs_g : Q;
  fat_calories : Q;
  fat_g : Q
}.
End Frame.

(** The returned dict: keys [calories] (an [int]), [protein_g],
    [carbs_g], [fat_g]. *)
Record MacroTargets := {
  calories : Z;
  protein_g : Q;
  carbs_g : Q;
  fat_g : Q
}.

(** The body of [calculate_macros] down to the [return], statement by
    statement. *)
Definition calculate_macros_locals
    (weight_lbs : Q) (height_inches : Z) (age : Z) (is_male : bool)
    (goal : string) (training_days_per_week : Z) : Frame.t :=
  (* Step 1: Calculate BMR *)
  let bmr := calculate_bmr_mifflin_st_jeor weight_lbs height_inches age is_male in
  (* Step 2: Apply activity multiplier to get maintenance *)
  let activity_mult := get_activity_multiplier training_days_per_week in
  let maintenance_calories := bmr * activity_mult in
  (* Step 3: Apply goal adjustment *)
  let goal_adj := get_goal_adjustment goal in
  let target_calories := maintenance_calories * (1 + goal_adj) in
  (* Step 4: Calculate protein *)
  let protein_per_lb := get_protein_per_lb goal in
  let protein_g := weight_lbs * protein_per_lb in
  let protein_calories := protein_g * inject_Z CALORIES_PER_GRAM_PROTEIN in
  (* Step 5: Calculate fat (20-30% of calories, minimum 0.3g per lb) *)
  let fat_min_g := weight_lbs * FAT_MIN_PER_LB in
  let fat_min_calories := fat_min_g * inject_Z CALORIES_PER_GRAM_FAT in
  let fat_max_calories := target_calories * FAT_PERCENT_MAX in
  let fat_min_calories_from_percent := target_calories * FAT_PERCENT_MIN in
  let fat_target_calories := Py.max fat_min_calories fat_min_calories_from_percent in
  let fat_target_calories := Py.min fat_target_calories fat_max_calories in
  let fat_g := fat_target_calories / inject_Z CALORIES_PER_GRAM_FAT in
  let fat_calories := fat_g * inject_Z CALORIES_PER_GRAM_FAT in
  (* Step 6: Fill remaining calories with carbs *)
  let remaining_calories := target_calories - protein_calories - fat_calories in
  let carbs_g := remaining_calories / inject_Z CALORIES_PER_GRAM_CARB in
  (* Ensure carbs are non-negative *)
  let '(carbs_g, fat_calories, fat_g) :=
    if Py.ltb carbs_g 0 then
      let carbs_g := 0 in
      let fat_calories := target_calories - protein_calories in
      let fat_g := fat_calories / inject_Z CALORIES_PER_GRAM_FAT in
      (carbs_g, fat_calories, fat_g)
    else (carbs_g, fat_calories, fat_g) in
  Frame.Make
    bmr activity_mult maintenance_calories goal_adj target_calories
    protein_per_lb protein_g protein_calories fat_min_g fat_min_calories
    fat_max_calories fat_min_calories_from_percent fat_target_calories
    remaining_calories carbs_g fat_calories fat_g.

(** Daily macronutrient targets: the [return] of [calculate_macros]. *)
Definition calculate_macros
    (weight_lbs : Q) (height_inches : Z) (age : Z) (is_male : bool)
    (goal : string) (training_days_per_week : Z) : MacroTargets :=
  let l := calculate_macros_locals weight_lbs height_inches age is_male
             goal training_days_per_week in
  {| calories := Py.round (Frame.target_calories l);
     protein_g := Py.round1 (Frame.protein_g l);
     carbs_g := Py.round1 (Frame.carbs_g l);
     fat_g := Py.round1 (Frame.fat_g l) |}.

(** ** The module on IEEE 754 doubles *)

Set Warnings "-inexact-float".

Module Binary64.

(** The exceptions the module can raise. *)
Inductive error :=
| OverflowError
| ValueError.

Definition bind {A B} (x : error + A) (k : A -> error + B) : error + B :=
  match x with
  | inl e => inl e
  | inr a => k a
  end.

(** The rational a finite double denotes; [None] for an infinity or a
    NaN. *)
Definition exact (x : float) : option Q :=
  match Prim2SF x with
  | S754_zero _ => Some 0
  | S754_finite s m e =>
      let v := inject_Z (Zpos m) * Qpower 2 e in
      Some (if s then - v else v)
  | S754_infinity _ | S754_nan => None
  end.

(** The double nearest to a rational, a tie going to the even
    mantissa: what reading a decimal string yields. *)
Definition nearest (q : Q) : float :=
  match Qnum q with
  | Z0 => PrimFloat.zero
  | Zpos n =>
      let '(m, e, l) :=
        SFdiv_core_binary prec emax (Zpos n) 0 (Zpos (Qden q)) 0 in
      SF2Prim (binary_round_aux prec emax false m e l)
  | Zneg n =>
      let '(m, e, l) :=
        SFdiv_core_binary prec emax (Zpos n) 0 (Zpos (Qden q)) 0 in
      SF2Prim (binary_round_aux prec emax true m e l)
  end.

(** An [int] used where a [float] is expected: the nearest double, or
    [OverflowError] when the [int] is too large. *)
Definition of_int (z : Z) : error + float :=
  let x := SF2Prim (binary_normalize prec emax z 0 false) in
  if PrimFloat.is_infinity x then inl OverflowError else inr x.

(** [round(x)]: half-to-even on the exact value; [OverflowError] on an
    infinity, [ValueError] on a NaN. *)
Definition round (x : float) : error + Z :=
  match exact x with
  | Some q => inr (Py.round q)
  | None => if PrimFloat.is_nan x then inl ValueError else inl OverflowError
  end.

(** [round(x, 1)]: the exact value rounded half-to-even to a tenth, then
    the double nearest to that decimal; an infinity or a NaN is
    returned as it is. *)
Definition round1 (x : float) : float :=
  match exact x with
  | Some q =>
      let tenths := Py.round (q * 10) in
      if (tenths =? 0)%Z
      then (if PrimFloat.get_sign x then PrimFloat.neg_zero
            else PrimFloat.zero)
      else nearest (inject_Z tenths / 10)
  | None => x
  end.

(** [max(a, b)] and [min(a, b)]. *)
Definition max (a b : float) : float := if (a <? b)%float then b else a.
Definition min (a b : float) : float := if (b <? a)%float then b else a.

Definition ACTIVITY_SEDENTARY : float := 1.2.
Definition ACTIVITY_LIGHT : float := 1.375.
Definition ACTIVITY_MODERATE : float := 1.55.
Definition ACTIVITY_ACTIVE : float := 1.725.
Definition ACTIVITY_VERY_ACTIVE : float := 1.9.

Definition GOAL_LOSE_WEIGHT : float := -0.20.
Definition GOAL_BUILD_MUSCLE : float := 0.10.
Definition GOAL_MAINTAIN : float := 0.0.
Definition GOAL_IMPROVE_ENDURANCE : float := 0.05.
Definition GOAL_GENERAL_FITNESS : float := 0.0.

Definition PROTEIN_MIN : float := 0.8.
Definition PROTEIN_MAINTENANCE : float := 0.8.
Definition PROTEIN_LOSE_WEIGHT : float := 1.0.
Definition PROTEIN_BUILD_MUSCLE : float := 1.2.
Definition PROTEIN_ENDURANCE : float := 0.9.
Definition PROTEIN_GENERAL : float := 0.8.

Definition FAT_PERCENT_MIN : float := 0.20.
Definition FAT_PERCENT_MAX : float := 0.30.
Definition FAT_MIN_PER_LB : float := 0.3.

Definition calculate_bmr_mifflin_st_jeor
    (weight_lbs : float) (height_inches : Z) (age : Z) (is_male : bool)
  : error + float :=
  let weight_kg := (weight_lbs * 0.453592)%float in
  bind (of_int height_inches) (fun height =>
  let height_cm := (height * 2.54)%float in
  bind (of_int (5 * age)) (fun age5 =>
  if is_male
  then inr ((10 * weight_kg) + (6.25 * height_cm) - age5 + 5)%float
  else inr ((10 * weight_kg) + (6.25 * height_cm) - age5 - 161)%float)).

Definition get_activity_multiplier (training_days_per_week : Z) : float :=
  if (training_days_per_week =? 0)%Z then ACTIVITY_SEDENTARY
  else if (training_days_per_week <=? 2)%Z then ACTIVITY_LIGHT
  else if (training_days_per_week <=? 4)%Z then ACTIVITY_MODERATE
  else if (training_days_per_week <=? 6)%Z then ACTIVITY_ACTIVE
  else ACTIVITY_VERY_ACTIVE.

Definition goal_adjustment_map : gmap string float :=
  list_to_map
    [ ("lose_weight", GOAL_LOSE_WEIGHT);
      ("build_muscle", GOAL_BUILD_MUSCLE);
      ("maintain", GOAL_MAINTAIN);
      ("improve_endurance", GOAL_IMPROVE_ENDURANCE);
      ("general_fitness", GOAL_GENERAL_FITNESS) ].

Definition get_goal_adjustment (goal : string) : float :=
  Py.get goal_adjustment_map goal GOAL_MAINTAIN.

Definition protein_per_lb_map : gmap string float :=
  list_to_map
    [ ("lose_weight", PROTEIN_LOSE_WEIGHT);
      ("build_muscle", PROTEIN_BUILD_MUSCLE);
      ("maintain", PROTEIN_MAINTENANCE);
      ("improve_endurance", PROTEIN_ENDURANCE);
      ("general_fitness", PROTEIN_GENERAL) ].

Definition get_protein_per_lb (goal : string) : float :=
  Py.get protein_per_lb_map goal PROTEIN_MIN.

(** The returned dict. *)
Record MacroTargets := {
  calories : Z;
  protein_g : float;
  carbs_g : float;
  fat_g : float
}.

(** [calculate_macros], statement by statement; the [round] of the
    target calories is the first entry of the returned dict and the
    only [round] that can raise. *)
Definition calculate_macros
    (weight_lbs : float) (height_inches : Z) (age : Z) (is_male : bool)
    (goal : string) (training_days_per_week : Z) : error + MacroTargets :=
  bind (calculate_bmr_mifflin_st_jeor weight_lbs height_inches age is_male)
    (fun bmr =>
  let activity_mult := get_activity_multiplier training_days_per_week in
  let maintenance_calories := (bmr * activity_mult)%float in
  let goal_adj := get_goal_adjustment goal in
  let target_calories := (maintenance_calories * (1 + goal_adj))%float in
  let protein_per_lb := get_protein_per_lb goal in
  let protein_g := (weight_lbs * protein_per_lb)%float in
  let protein_calories := (protein_g * 4)%float in
  let fat_min_g := (weight_lbs * FAT_MIN_PER_LB)%float in
  let fat_min_calories := (fat_min_g * 9)%float in
  let fat_max_calories := (target_calories * FAT_PERCENT_MAX)%float in
  let fat_min_calories_from_percent :=
    (target_calories * FAT_PERCENT_MIN)%float in
  let fat_target_calories :=
    max fat_min_calories fat_min_calories_from_percent in
  let fat_target_calories := min fat_target_calories fat_max_calories in
  let fat_g := (fat_target_calories / 9)%float in
  let fat_calories := (fat_g * 9)%float in
  let remaining_calories :=
    (target_calories - protein_calories - fat_calories)%float in
  let carbs_g := (remaining_calories / 4)%float in
  let '(carbs_g, fat_calories, fat_g) :=
    if (carbs_g <? 0)%float then
      let carbs_g := 0%float in
      let fat_calories := (target_calories - protein_calories)%float in
      let fat_g := (fat_calories / 9)%float in
      (carbs_g, fat_calories, fat_g)
    else (carbs_g, fat_calories, fat_g) in
  bind (round target_calories) (fun calories =>
  inr {| calories := calories;
         protein_g := round1 protein_g;
         carbs_g := round1 carbs_g;
         fat_g := round1 fat_g |})).

(** [protein_g*4 + carbs_g*4 + fat_g*9] of a returned dict, as the
    number it is. *)
Definition total_calc (r : MacroTargets) : option Q :=
  p ← exact (protein_g r);
  c ← exact (carbs_g r);
  f ← exact (fat_g r);
  Some (p * 4 + c * 4 + f * 9).

End Binary64.

(** Whether the binary64 code returns, and returns macros that carry
    the returned calories to within 10. *)
Definition binary64_within_10
    (weight_lbs : float) (height_inches age : Z) (is_male : bool)
    (goal : string) (training_days_per_week : Z) : bool :=
  match Binary64.calculate_macros weight_lbs height_inches age is_male goal
          training_days_per_week with
  | inr r =>
      match Binary64.total_calc r with
      | Some total =>
          match Qabs (total - inject_Z (Binary64.calories r)) ?= 10 with
          | Gt => false
          | _ => true
          end
      | None => false
      end
  | inl _ => false
  end.

(** ** Vocabulary of the specification *)

(** The goal strings the two lookup tables know. *)
Definition known_goals : list string :=
  ["lose_weight"; "build_muscle"; "maintain"; "improve_endurance";
   "general_fitness"].

(** The calories carried by the returned macros, as the tests add them
    up: [protein_g * 4 + carbs_g * 4 + fat_g * 9]. *)
Definition total_calc (r : MacroTargets) : Q :=
  protein_g r * 4 + carbs_g r * 4 + fat_g r * 9.

(** ** The onboarding route: [backend/app/api/routes/users.py] *)

(** The request body of [POST /onboarding], field by field. *)
Module OnboardingRequest.
Record t := Make {
  goal : string;
  experience : string;
  training_days_per_week : Z;
  equipment_style : string;
  check_in_day : string;
  height_feet : Z;
  height_inches : Z;
  weight_pounds : Q;
  age : Z;
  gender : option string;
  food_preferences : list string;
  allergies : list string;
  meals_per_day : Z;
  wake_time : option string;
  sleep_time : option string;
  injuries : list string;
  budget_tier : string;
  current_cardio : string;
  motivation_style : string
}.
End OnboardingRequest.

(** [request.gender == "male"]: [None] and every other string compare
    unequal. *)
Definition gender_is_male (gender : option string) : bool :=
  match gender with
  | Some g => String.eqb g "male"
  | None => false
  end.

(** The macro targets [submit_onboarding] computes from the request and
    stores (the "Calculate macros" block, between the database check and
    the update).  The [updated_at] timestamp stored beside them comes
    from the clock and is left out. *)
Definition submit_onboarding_macro_targets
    (request : OnboardingRequest.t) : MacroTargets :=
  let total_height_inches :=
    (OnboardingRequest.height_feet request * 12
     + OnboardingRequest.height_inches request)%Z in
  let is_male := gender_is_male (OnboardingRequest.gender request) in
  let macro_result :=
    calculate_macros
      (OnboardingRequest.weight_pounds request)
      total_height_inches
      (OnboardingRequest.age request)
      is_male
      (OnboardingRequest.goal request)
      (OnboardingRequest.training_days_per_week request) in
  {| calories := calories macro_result;
     protein_g := protein_g macro_result;
     carbs_g := carbs_g macro_result;
     fat_g := fat_g macro_result |}.

(** The request body the test suite posts, with gender and height left
    open. *)
Definition test_request
    (gender : option string) (height_feet height_inches : Z)
  : OnboardingRequest.t :=
  OnboardingRequest.Make
    "build_muscle" "intermediate" 4 "full_gym" "monday"
    height_feet height_inches 180.0 30 gender
    ["high_protein"] [] 4 None None [] "moderate" "Running 3x/week"
    "supportive".

(** ** The database client: [backend/app/db/client.py] *)

Module PyStr.

(** [s.split(sep)] for a one-character separator: the pieces between
    the occurrences of [sep], in order; never an empty list. *)
Fixpoint split (sep : ascii) (s : string) : list string :=
  match s with
  | EmptyString => [EmptyString]
  | String c rest =>
      if Ascii.eqb c sep then EmptyString :: split sep rest
      else match split sep rest with
           | piece :: pieces => String c piece :: pieces
           | [] => [String c EmptyString]
           end
  end.

(** [c in s]. *)
Fixpoint contains (c : ascii) (s : string) : bool :=
  match s with
  | EmptyString => false
  | String c' rest => Ascii.eqb c' c || contains c rest
  end.

End PyStr.

Module MongoDBClient.

(** [settings.mongodb_uri.split("/")[-1].split("?")[0]]; [None] stands
    for an [IndexError]. *)
Definition db_name_of_uri (uri : string) : option string :=
  segment ← last (PyStr.split "/"%char uri);
  head (PyStr.split "?"%char segment).

(** Exceptions that leave [connect]. *)
Inductive exn :=
| ConnectionFailure
| IndexError
| DriverError.

(** What the [ping] command did: returned, raised [ConnectionFailure]
    (or a subclass), or raised something else. *)
Inductive ping_result :=
| PingOk
| PingConnectionFailure
| PingOtherError.

(** How a call ended. *)
Inductive outcome :=
| Returned
| Raised (e : exn).

Section Driver.

(** The driver: client and database handles, the client constructor
    [AsyncIOMotorClient(uri)] and the indexing [client[name]].  [None]
    stands for an exception raised by the driver. *)
Variables (Client Database : Type).
Variable AsyncIOMotorClient : string -> option Client.
Variable getitem : Client -> string -> option Database.

(** The class attributes of [MongoDBClient]. *)
Record state := State {
  client : option Client;
  database : option Database
}.

(** The class as defined: [client = None], [database = None]. *)
Definition initial : state := State None None.

(** Calls made on a client. *)
Inductive event :=
| Ping (c : Client)
| Close (c : Client).

(** [MongoDBClient.connect()], with the configured URI and the result
    the [ping] would have. *)
Definition connect (uri : string) (ping : ping_result) (s : state)
  : state * list event * outcome :=
  match client s with
  | Some _ => (s, [], Returned)
  | None =>
      match AsyncIOMotorClient uri with
      | None => (s, [], Raised DriverError)
      | Some c =>
          let s := State (Some c) (database s) in
          match db_name_of_uri uri with
          | None => (s, [], Raised IndexError)
          | Some db_name =>
              match getitem c db_name with
              | None => (s, [], Raised DriverError)
              | Some d =>
                  let s := State (Some c) (Some d) in
                  match ping with
                  | PingOk => (s, [Ping c], Returned)
                  | PingConnectionFailure =>
                      (s, [Ping c], Raised ConnectionFailure)
                  | PingOtherError => (s, [Ping c], Raised DriverError)
                  end
              end
          end
      end
  end.

(** [MongoDBClient.disconnect()]. *)
Definition disconnect (s : state) : state * list event * outcome :=
  match client s with
  | Some c => (State None None, [Close c], Returned)
  | None => (s, [], Returned)
  end.

(** [MongoDBClient.get_database()]. *)
Definition get_database (s : state) : option Database := database s.

(** A call on the class. *)
Inductive op :=
| Connect (uri : string) (ping : ping_result)
| Disconnect.

Definition step (s : state) (o : op) : state * list event * outcome :=
  match o with
  | Connect uri ping => connect uri ping s
  | Disconnect => disconnect s
  end.

(** The state after a sequence of calls, exceptions caught by the
    caller. *)
Definition run (ops : list op) (s : state) : state :=
  fold_left (fun s o => (step s o).1.1) ops s.

End Driver.

End MongoDBClient.

(** ** Facts about the builtins *)

Module PyFacts.

Lemma ltb_true (a b : Q) : Py.ltb a b = true <-> a < b.
Proof.
  unfold Py.ltb. rewrite Qlt_alt.
  destruct (a ?= b); split; congruence.
Qed.

Lemma ltb_false (a b : Q) : Py.ltb a b = false <-> b <= a.
Proof.
  unfold Py.ltb.
  destruct (Qcompare_spec a b); split; intros;
    try discriminate; try reflexivity; lra.
Qed.

Lemma max_Qmax (a b : Q) : Py.max a b == Qmax a b.
Proof.
  unfold Py.max. destruct (Py.ltb a b) eqn:E.
  - apply ltb_true in E. symmetry. apply Q.max_r. lra.
  - apply ltb_false in E. symmetry. apply Q.max_l. lra.
Qed.

Lemma min_Qmin (a b : Q) : Py.min a b == Qmin a b.
Proof.
  unfold Py.min. destruct (Py.ltb b a) eqn:E.
  - apply ltb_true in E. symmetry. apply Q.min_r. lra.
  - apply ltb_false in E. symmetry. apply Q.min_l. lra.
Qed.

Lemma min_Qmin_eq (a b c : Q) :
  Py.min (Py.max a b) c == Qmin (Qmax a b) c.
Proof.
  rewrite min_Qmin. apply Q.min_compat; [apply max_Qmax | reflexivity].
Qed.

(** [round] picks the floor or the integer above it. *)
Lemma round_cases (x : Q) :
  Py.round x = Qfloor x \/ Py.round x = (Qfloor x + 1)%Z.
Proof.
  unfold Py.round.
  destruct (x - inject_Z (Qfloor x) ?= 1 # 2); auto.
  destruct (Z.even (Qfloor x)); auto.
Qed.

(** [round(x)] is within one half of [x]. *)
Lemma round_near (x : Q) :
  x - (1 # 2) <= inject_Z (Py.round x) <= x + (1 # 2).
Proof.
  pose proof (Qfloor_le x) as Hlo.
  pose proof (Qlt_floor x) as Hhi.
  rewrite inject_Z_plus in Hhi. change (inject_Z 1) with 1 in Hhi.
  unfold Py.round.
  destruct (Qcompare_spec (x - inject_Z (Qfloor x)) (1 # 2)) as [E|E|E];
    [destruct (Z.even (Qfloor x)) | | ];
    rewrite ?inject_Z_plus; change (inject_Z 1) with 1; lra.
Qed.

#[export] Instance round_comp : Proper (Qeq ==> eq) Py.round.
Proof.
  intros x y E. unfold Py.round.
  rewrite <- (Qfloor_comp _ _ E).
  assert (x - inject_Z (Qfloor x) == y - inject_Z (Qfloor x)) as E' by lra.
  now rewrite (Qcompare_comp _ _ E' (1 # 2) (1 # 2) (Qeq_refl _)).
Qed.

#[export] Instance round1_comp : Proper (Qeq ==> Qeq) Py.round1.
Proof.
  intros x y E. unfold Py.round1.
  assert (x * 10 == y * 10) as E' by lra.
  now rewrite (round_comp _ _ E').
Qed.

(** [round] is monotone. *)
Lemma round_mono (x y : Q) : x <= y -> (Py.round x <= Py.round y)%Z.
Proof.
  intros Hxy.
  pose proof (Qfloor_resp_le _ _ Hxy) as Hf.
  destruct (Z.eq_dec (Qfloor x) (Qfloor y)) as [Heq|Hne].
  - unfold Py.round. rewrite <- Heq.
    destruct (Qcompare_spec (x - inject_Z (Qfloor x)) (1 # 2));
      destruct (Qcompare_spec (y - inject_Z (Qfloor x)) (1 # 2));
      destruct (Z.even (Qfloor x)); try lia; exfalso; lra.
  - destruct (round_cases x) as [->| ->];
      destruct (round_cases y) as [->| ->]; lia.
Qed.


(** [round(x, 1)] is monotone. *)
Lemma round1_mono (x y : Q) : x <= y -> Py.round1 x <= Py.round1 y.
Proof.
  intros Hxy. unfold Py.round1.
  assert (inject_Z (Py.round (x * 10)) <= inject_Z (Py.round (y * 10))) as H.
  { rewrite <- Zle_Qle. apply round_mono. lra. }
  unfold Qdiv. apply Qmult_le_compat_r; [exact H | discriminate].
Qed.

Lemma round1_zero : Py.round1 0 == 0.
Proof. reflexivity. Qed.

(** [round(x, 1)] keeps the sign of a non-negative argument. *)
Lemma round1_nonneg (x : Q) : 0 <= x -> 0 <= Py.round1 x.
Proof.
  intros H. rewrite <- round1_zero. now apply round1_mono.
Qed.

End PyFacts.

(** ** The frame of [calculate_macros], variable by variable *)

Section Frame_equations.

Variables (weight_lbs : Q) (height_inches age : Z) (is_male : bool)
          (goal : string) (training_days_per_week : Z).

Local Abbreviation l :=
  (calculate_macros_locals weight_lbs height_inches age is_male
     goal training_days_per_week).

Ltac frame_eq :=
  unfold calculate_macros_locals; cbv zeta;
  match goal with
  | |- context [Py.ltb ?c 0] => destruct (Py.ltb c 0)
  end; reflexivity.

Lemma frame_bmr :
  Frame.bmr l
  = calculate_bmr_mifflin_st_jeor weight_lbs height_inches age is_male.
Proof. frame_eq. Qed.

Lemma frame_activity_mult :
  Frame.activity_mult l = get_activity_multiplier training_days_per_week.
Proof. frame_eq. Qed.

Lemma frame_maintenance_calories :
  Frame.maintenance_calories l = Frame.bmr l * Frame.activity_mult l.
Proof. frame_eq. Qed.

Lemma frame_goal_adj : Frame.goal_adj l = get_goal_adjustment goal.
Proof. frame_eq. Qed.

Lemma frame_target_calories :
  Frame.target_calories l
  = Frame.maintenance_calories l * (1 + Frame.goal_adj l).
Proof. frame_eq. Qed.

Lemma frame_protein_per_lb :
  Frame.protein_per_lb l = get_protein_per_lb goal.
Proof. frame_eq. Qed.

Lemma frame_protein_g :
  Frame.protein_g l = weight_lbs * Frame.protein_per_lb l.
Proof. frame_eq. Qed.


Lemma frame_fat_min_g : Frame.fat_min_g l = weight_lbs * FAT_MIN_PER_LB.
Proof. frame_eq. Qed.

Lemma frame_fat_min_calories :
  Frame.fat_min_calories l = Frame.fat_min_g l * 9.
Proof. frame_eq. Qed.

Lemma frame_fat_max_calories :
  Frame.fat_max_calories l = Frame.target_calories l * FAT_PERCENT_MAX.
Proof. frame_eq. Qed.

Lemma frame_fat_min_calories_from_percent :
  Frame.fat_min_calories_from_percent l
  = Frame.target_calories l * FAT_PERCENT_MIN.
Proof. frame_eq. Qed.

Lemma frame_fat_target_calories :
  Frame.fat_target_calories l
  = Py.min (Py.max (Frame.fat_min_calories l)
                   (Frame.fat_min_calories_from_percent l))
           (Frame.fat_max_calories l).
Proof. frame_eq. Qed.

Lemma frame_remaining_calories :
  Frame.remaining_calories l
  = Frame.target_calories l - Frame.protein_calories l
    - Frame.fat_target_calories l / 9 * 9.
Proof. frame_eq. Qed.

(** The [if carbs_g < 0] statement, taken. *)
Lemma frame_clamped :
  Py.ltb (Frame.remaining_calories l / 4) 0 = true ->
  Frame.carbs_g l = 0
  /\ Frame.fat_calories l
     = Frame.target_calories l - Frame.protein_calories l
  /\ Frame.fat_g l = Frame.fat_calories l / 9.
Proof.
  unfold calculate_macros_locals; cbv zeta.
  match goal with
  | |- context [if Py.ltb ?c 0 then _ else _] => destruct (Py.ltb c 0) eqn:E
  end; cbn [Frame.remaining_calories Frame.carbs_g Frame.fat_calories
            Frame.fat_g Frame.target_calories Frame.protein_calories].
  - intros _. repeat split.
  - unfold CALORIES_PER_GRAM_CARB in E. intros H.
    change (inject_Z 4) with 4 in E. congruence.
Qed.

(** The [if carbs_g < 0] statement, not taken. *)
Lemma frame_unclamped :
  Py.ltb (Frame.remaining_calories l / 4) 0 = false ->
  Frame.carbs_g l = Frame.remaining_calories l / 4
  /\ Frame.fat_g l = Frame.fat_target_calories l / 9
  /\ Frame.fat_calories l = Frame.fat_g l * 9.
Proof.
  unfold calculate_macros_locals; cbv zeta.
  match goal with
  | |- context [if Py.ltb ?c 0 then _ else _] => destruct (Py.ltb c 0) eqn:E
  end; cbn [Frame.remaining_calories Frame.carbs_g Frame.fat_calories
            Frame.fat_g Frame.target_calories Frame.protein_calories
            Frame.fat_target_calories].
  - unfold CALORIES_PER_GRAM_CARB in E. intros H.
    change (inject_Z 4) with 4 in E. congruence.
  - intros _. repeat split.
Qed.


End Frame_equations.

(** ** The scenarios of the test suite *)

(** 205 lb, 72 in, 28 years, male, build_muscle, 5 days. *)
Example scenario_lean_bulk_205lb :
  calories (calculate_macros 205 72 28 true "build_muscle" 5) = 3677%Z
  /\ protein_g (calculate_macros 205 72 28 true "build_muscle" 5) == 246.0
  /\ carbs_g (calculate_macros 205 72 28 true "build_muscle" 5) == 489.4
  /\ fat_g (calculate_macros 205 72 28 true "build_muscle" 5) == 81.7.
Proof. vm_compute. repeat split. Qed.

(** 180 lb, 70 in, 35 years, male, lose_weight, 4 days. *)
Example scenario_weight_loss :
  calories (calculate_macros 180 70 35 true "lose_weight" 4) = 2180%Z
  /\ protein_g (calculate_macros 180 70 35 true "lose_weight" 4) == 180.0
  /\ carbs_g (calculate_macros 180 70 35 true "lose_weight" 4) == 243.4
  /\ fat_g (calculate_macros 180 70 35 true "lose_weight" 4) == 54.0.
Proof. vm_compute. repeat split. Qed.

(** 140 lb, 65 in, 30 years, female, maintain, 3 days. *)
Example scenario_maintenance_female :
  calories (calculate_macros 140 65 30 false "maintain" 3) = 2102%Z
  /\ protein_g (calculate_macros 140 65 30 false "maintain" 3) == 112.0
  /\ carbs_g (calculate_macros 140 65 30 false "maintain" 3) == 308.3
  /\ fat_g (calculate_macros 140 65 30 false "maintain" 3) == 46.7.
Proof. vm_compute. repeat split. Qed.

(** In the first scenario the fat floor of 20% binds before rounding;
    after rounding, [fat_g * 9] is 735.3 kcal of 3677, a hair under
    20%. *)
Example scenario_lean_bulk_fat_share :
  Frame.fat_target_calories
    (calculate_macros_locals 205 72 28 true "build_muscle" 5)
  == Frame.target_calories
       (calculate_macros_locals 205 72 28 true "build_muscle" 5) * 0.20
  /\ fat_g (calculate_macros 205 72 28 true "build_muscle" 5) * 9
     < 0.20 * inject_Z (calories
                          (calculate_macros 205 72 28 true "build_muscle" 5)).
Proof. vm_compute. repeat split. Qed.

(** ** BMR estimator *)


(** ** Activity multiplier *)

(** C7. On 0..7 training days the multiplier is 1.20 for 0, 1.375 for
    1-2, 1.55 for 3-4, 1.725 for 5-6 and 1.90 for 7, and
    [calculate_macros] sets [maintenance_calories] to the BMR times that
    multiplier. *)
Theorem activity_bands
    (weight_lbs : Q) (height_inches age : Z) (is_male : bool)
    (goal : string) (training_days_per_week : Z) :
  (0 <= training_days_per_week <= 7)%Z ->
  let mult := get_activity_multiplier training_days_per_week in
  (training_days_per_week = 0%Z -> mult = 1.2)
  /\ ((1 <= training_days_per_week <= 2)%Z -> mult = 1.375)
  /\ ((3 <= training_days_per_week <= 4)%Z -> mult = 1.55)
  /\ ((5 <= training_days_per_week <= 6)%Z -> mult = 1.725)
  /\ (training_days_per_week = 7%Z -> mult = 1.9)
  /\ Frame.maintenance_calories
       (calculate_macros_locals weight_lbs height_inches age is_male
          goal training_days_per_week)
     = calculate_bmr_mifflin_st_jeor weight_lbs height_inches age is_male
       * mult.
Proof.
  intros Hd mult. subst mult.
  repeat match goal with |- _ /\ _ => split end;
    [ .. | now rewrite frame_maintenance_calories, frame_bmr,
                       frame_activity_mult ];
    intros Hband; unfold get_activity_multiplier;
    destruct (Z.eqb_spec training_days_per_week 0);
    destruct (Z.leb_spec training_days_per_week 2);
    destruct (Z.leb_spec training_days_per_week 4);
    destruct (Z.leb_spec training_days_per_week 6);
    try reflexivity; exfalso; lia.
Qed.

Lemma activity_bands_witness :
  get_activity_multiplier 5 = 1.725
  /\ Frame.maintenance_calories
       (calculate_macros_locals 205 72 28 true "build_muscle" 5)
     = calculate_bmr_mifflin_st_jeor 205 72 28 true * 1.725.
Proof.
  destruct (activity_bands 205 72 28 true "build_muscle" 5 ltac:(lia))
    as (_ & _ & _ & H4 & _ & H6).
  split; [apply H4; lia | exact H6].
Defined.

(** C10. Below zero training days the multiplier is that of the light
    band, 1.375, and not the sedentary 1.20: only [== 0] selects the
    sedentary band. *)
Theorem negative_days_light_band (training_days_per_week : Z) :
  (training_days_per_week < 0)%Z ->
  get_activity_multiplier training_days_per_week = ACTIVITY_LIGHT
  /\ get_activity_multiplier training_days_per_week = 1.375
  /\ ~ get_activity_multiplier training_days_per_week == 1.20.
Proof.
  intros Hneg. unfold get_activity_multiplier.
  destruct (Z.eqb_spec training_days_per_week 0) as [E|_]; [lia|].
  destruct (Z.leb_spec training_days_per_week 2) as [_|E]; [|lia].
  repeat split. discriminate.
Qed.

Lemma negative_days_light_band_witness :
  get_activity_multiplier (-1) = 1.375.
Proof.
  exact (proj1 (proj2 (negative_days_light_band (-1) ltac:(lia)))).
Defined.

(** ** Goal lookups *)

Lemma goal_adjustment_map_keys :
  dom goal_adjustment_map = list_to_set known_goals.
Proof. unfold goal_adjustment_map. now rewrite dom_list_to_map_L. Qed.

Lemma protein_per_lb_map_keys :
  dom protein_per_lb_map = list_to_set known_goals.
Proof. unfold protein_per_lb_map. now rewrite dom_list_to_map_L. Qed.

Lemma get_goal_adjustment_unknown (goal : string) :
  goal ∉ known_goals -> get_goal_adjustment goal = GOAL_MAINTAIN.
Proof.
  intros Hg. unfold get_goal_adjustment, Py.get, goal_adjustment_map.
  rewrite (not_elem_of_list_to_map_1 _ goal); [reflexivity | exact Hg].
Qed.

Lemma get_protein_per_lb_unknown (goal : string) :
  goal ∉ known_goals -> get_protein_per_lb goal = PROTEIN_MIN.
Proof.
  intros Hg. unfold get_protein_per_lb, Py.get, protein_per_lb_map.
  rewrite (not_elem_of_list_to_map_1 _ goal); [reflexivity | exact Hg].
Qed.

Lemma get_goal_adjustment_maintain :
  get_goal_adjustment "maintain" = GOAL_MAINTAIN.
Proof. vm_compute. reflexivity. Qed.

Lemma get_protein_per_lb_maintain :
  get_protein_per_lb "maintain" = PROTEIN_MAINTENANCE.
Proof. vm_compute. reflexivity. Qed.

(** Every protein-per-lb value the table can return, default included. *)
Lemma get_protein_per_lb_values (goal : string) :
  get_protein_per_lb goal ∈ [1.0; 1.2; 0.8; 0.9].
Proof.
  unfold get_protein_per_lb, Py.get.
  destruct (protein_per_lb_map !! goal) as [q|] eqn:E; simpl.
  - apply elem_of_list_to_map_2 in E.
    repeat (apply elem_of_cons in E as [E|E];
            [injection E as _ ->; repeat constructor | ]).
    inversion E.
  - repeat constructor.
Qed.

Lemma get_protein_per_lb_nonneg (goal : string) :
  0 <= get_protein_per_lb goal.
Proof.
  pose proof (get_protein_per_lb_values goal) as H.
  repeat (apply elem_of_cons in H as [-> | H]; [discriminate | ]).
  inversion H.
Qed.

(** C5. A goal string outside the five known ones makes
    [get_goal_adjustment] return the maintain delta 0.0 and
    [get_protein_per_lb] the floor constant 0.8; neither lookup fails
    ([dict.get] with a default), and [calculate_macros] returns on such
    a goal what it returns for ["maintain"]. *)
Theorem unknown_goal_fallback
    (weight_lbs : Q) (height_inches age : Z) (is_male : bool)
    (goal : string) (training_days_per_week : Z) :
  goal ∉ known_goals ->
  goal_adjustment_map !! goal = None
  /\ protein_per_lb_map !! goal = None
  /\ get_goal_adjustment goal = 0.0
  /\ get_protein_per_lb goal = 0.8
  /\ calculate_macros weight_lbs height_inches age is_male goal
       training_days_per_week
     = calculate_macros weight_lbs height_inches age is_male "maintain"
         training_days_per_week.
Proof.
  intros Hg.
  pose proof (get_goal_adjustment_unknown goal Hg) as Ha.
  pose proof (get_protein_per_lb_unknown goal Hg) as Hp.
  repeat split.
  - now apply not_elem_of_list_to_map_1.
  - now apply not_elem_of_list_to_map_1.
  - exact Ha.
  - exact Hp.
  - unfold calculate_macros, calculate_macros_locals.
    rewrite Ha, Hp, get_goal_adjustment_maintain, get_protein_per_lb_maintain.
    reflexivity.
Qed.

Lemma unknown_goal_fallback_witness :
  get_goal_adjustment "unknown_string" = 0.0
  /\ get_protein_per_lb "unknown_string" = 0.8
  /\ calculate_macros 140 65 30 false "unknown_string" 3
     = calculate_macros 140 65 30 false "maintain" 3.
Proof.
  assert ("unknown_string" ∉ known_goals) as Hg.
  { unfold known_goals. rewrite !not_elem_of_cons.
    repeat split; try discriminate. apply not_elem_of_nil. }
  destruct (unknown_goal_fallback 140 65 30 false "unknown_string" 3 Hg)
    as (_ & _ & Ha & Hp & Hr).
  exact (conj Ha (conj Hp Hr)).
Defined.

(** ** Protein allocation *)

(** C9. The returned [protein_g] is [round(weight_lbs * per_lb(goal), 1)]:
    two calls with the same weight and goal return the same [protein_g]
    whatever the height, age, sex and training days. *)
Theorem protein_depends_on_weight_goal
    (weight_lbs : Q) (goal : string)
    (height_inches1 age1 : Z) (is_male1 : bool) (days1 : Z)
    (height_inches2 age2 : Z) (is_male2 : bool) (days2 : Z) :
  protein_g (calculate_macros weight_lbs height_inches1 age1 is_male1
               goal days1)
  = protein_g (calculate_macros weight_lbs height_inches2 age2 is_male2
                 goal days2)
  /\ protein_g (calculate_macros weight_lbs height_inches1 age1 is_male1
                  goal days1)
     = Py.round1 (weight_lbs * get_protein_per_lb goal).
Proof.
  unfold calculate_macros; cbn [protein_g].
  now rewrite !frame_protein_g, !frame_protein_per_lb.
Qed.

(** ** Fat allocation *)

(** C3. The fat calories chosen before the carbohydrate fill are
    [min(max(weight_lbs*0.3*9, target*0.20), target*0.30)]: [max]
    reconciles the two floors first, [min] applies the 30% ceiling last
    and without condition, so the result never exceeds the ceiling and
    equals it whenever the 0.3 g/lb floor lies above it. *)
Theorem fat_target_calories_min_max
    (weight_lbs : Q) (height_inches age : Z) (is_male : bool)
    (goal : string) (training_days_per_week : Z) :
  let l := calculate_macros_locals weight_lbs height_inches age is_male
             goal training_days_per_week in
  let t := Frame.target_calories l in
  Frame.fat_target_calories l
  == Qmin (Qmax (weight_lbs * 0.3 * 9) (t * 0.20)) (t * 0.30)
  /\ Frame.fat_target_calories l <= t * 0.30
  /\ (t * 0.30 < weight_lbs * 0.3 * 9 ->
      Frame.fat_target_calories l == t * 0.30).
Proof.
  intros l t. subst l t.
  rewrite frame_fat_target_calories, frame_fat_min_calories,
    frame_fat_min_g, frame_fat_min_calories_from_percent,
    frame_fat_max_calories.
  unfold FAT_MIN_PER_LB, FAT_PERCENT_MIN, FAT_PERCENT_MAX.
  rewrite PyFacts.min_Qmin_eq.
  split; [reflexivity | split].
  - apply Q.le_min_r.
  - intros Hconflict. apply Q.min_r.
    eapply Qle_trans; [ | apply Q.le_max_l ]. lra.
Qed.

(** The ceiling beating the absolute floor, on a concrete input: the
    floor asks for 135 kcal of fat, 30% of the target is less. *)
Lemma fat_target_calories_min_max_witness :
  Frame.fat_target_calories
    (calculate_macros_locals 50 36 100 false "build_muscle" 0)
  == Frame.target_calories
       (calculate_macros_locals 50 36 100 false "build_muscle" 0) * 0.30
  /\ Frame.fat_target_calories
       (calculate_macros_locals 50 36 100 false "build_muscle" 0)
     < 50 * 0.3 * 9.
Proof.
  destruct (fat_target_calories_min_max 50 36 100 false "build_muscle" 0)
    as (_ & _ & Hceil).
  split; [apply Hceil; vm_compute; reflexivity | vm_compute; reflexivity].
Defined.

(** ** Carbohydrate fill *)

(** C4. When the carbohydrate fill
    [(target_calories - protein_calories - fat_calories)/4] is negative,
    [carbs_g] is 0 and fat is recomputed as
    [round((target_calories - protein_calories)/9, 1)], whatever the fat
    bounds chose; when it is not negative, the bounded fat value is kept
    and [carbs_g] is the rounded fill. *)
Theorem carb_fill_clamp
    (weight_lbs : Q) (height_inches age : Z) (is_male : bool)
    (goal : string) (training_days_per_week : Z) :
  let l := calculate_macros_locals weight_lbs height_inches age is_male
             goal training_days_per_week in
  let result := calculate_macros weight_lbs height_inches age is_male
                  goal training_days_per_week in
  let t := Frame.target_calories l in
  let pc := Frame.protein_calories l in
  let fat_bounded := Frame.fat_target_calories l / 9 in
  let fill := (t - pc - fat_bounded * 9) / 4 in
  (fill < 0 ->
   carbs_g result == 0
   /\ fat_g result = Py.round1 ((t - pc) / 9))
  /\ (0 <= fill ->
      fat_g result = Py.round1 fat_bounded
      /\ carbs_g result = Py.round1 fill).
Proof.
  intros l result t pc fat_bounded fill.
  subst result t pc fat_bounded fill l.
  unfold calculate_macros; cbn [carbs_g fat_g].
  split; intros Hfill.
  - destruct (frame_clamped weight_lbs height_inches age is_male goal
                training_days_per_week) as (-> & Hfc & ->).
    { rewrite frame_remaining_calories. now apply PyFacts.ltb_true. }
    rewrite Hfc. split; reflexivity.
  - destruct (frame_unclamped weight_lbs height_inches age is_male goal
                training_days_per_week) as (-> & -> & _).
    { rewrite frame_remaining_calories. now apply PyFacts.ltb_false. }
    rewrite frame_remaining_calories. split; reflexivity.
Qed.

(** Both sides of the clamp on concrete inputs: the 50 lb case above
    has a negative fill and gets [carbs_g = 0], [fat_g = -6.5]; the
    140 lb maintenance case keeps its bounded fat, 46.7 g. *)
Lemma carb_fill_clamp_witness :
  (carbs_g (calculate_macros 50 36 100 false "build_muscle" 0) == 0
   /\ fat_g (calculate_macros 50 36 100 false "build_muscle" 0) == -6.5)
  /\ (fat_g (calculate_macros 140 65 30 false "maintain" 3) == 46.7
      /\ carbs_g (calculate_macros 140 65 30 false "maintain" 3) == 308.3).
Proof.
  split.
  - destruct (carb_fill_clamp 50 36 100 false "build_muscle" 0)
      as (Hneg & _).
    destruct Hneg as (Hc & Hf); [vm_compute; reflexivity | ].
    split; [exact Hc | rewrite Hf; vm_compute; reflexivity].
  - destruct (carb_fill_clamp 140 65 30 false "maintain" 3)
      as (_ & Hpos).
    destruct Hpos as (Hf & Hc); [vm_compute; discriminate | ].
    rewrite Hf, Hc. split; vm_compute; reflexivity.
Defined.

(** ** Output invariants *)





(** At 10^308 lb, still valid input, the BMR overflows to infinity and
    [round(target_calories)] raises. *)
Example calculate_macros_overflow :
  Binary64.calculate_macros 1e308 70 30 true "maintain" 3
  = inl Binary64.OverflowError.
Proof. vm_compute. reflexivity. Qed.

(** The doubles on the scenarios of the test suite: the same calories
    and the same decimals as the exact reading, each decimal as the
    double nearest to it. *)
Example binary64_scenarios :
  Binary64.calculate_macros 205 72 28 true "build_muscle" 5
  = inr {| Binary64.calories := 3677; Binary64.protein_g := 246;
           Binary64.carbs_g := 489.4; Binary64.fat_g := 81.7 |}
  /\ Binary64.calculate_macros 180 70 35 true "lose_weight" 4
     = inr {| Binary64.calories := 2180; Binary64.protein_g := 180;
              Binary64.carbs_g := 243.4; Binary64.fat_g := 54 |}
  /\ Binary64.calculate_macros 140 65 30 false "maintain" 3
     = inr {| Binary64.calories := 2102; Binary64.protein_g := 112;
              Binary64.carbs_g := 308.3; Binary64.fat_g := 46.7 |}.
Proof. vm_compute. repeat split. Qed.

(** Where the two readings part on ordinary input: 169.3125 lb at 0.8
    g/lb is 135.45 g exactly, a tie that goes to 135.4; the double
    nearest to 0.8 lies above 0.8, the product above the tie, and the
    code returns 135.5. *)
Example readings_part_on_a_tie :
  protein_g (calculate_macros (1693125 # 10000) 70 30 true "maintain" 3)
  == 135.4
  /\ exists r,
       Binary64.calculate_macros 169.3125 70 30 true "maintain" 3 = inr r
       /\ Binary64.protein_g r = 135.5%float.
Proof.
  split; [vm_compute; reflexivity | ].
  eexists. split; vm_compute; reflexivity.
Qed.

(** The doubles inside the bounds of [calorie_balance_bounded]: on the
    test scenarios, on a tie, and at the edge of the bounds, the macros
    returned by the binary64 code carry the returned calories to
    within 10; at 10^18 lb they do not. *)
Example binary64_within_10_samples :
  binary64_within_10 205 72 28 true "build_muscle" 5 = true
  /\ binary64_within_10 180 70 35 true "lose_weight" 4 = true
  /\ binary64_within_10 140 65 30 false "maintain" 3 = true
  /\ binary64_within_10 169.3125 70 30 true "maintain" 3 = true
  /\ binary64_within_10 381.5 70 30 true "maintain" 3 = true
  /\ binary64_within_10 50 36 100 false "build_muscle" 0 = true
  /\ binary64_within_10 1e12 1000000000000 1000000000000 true
       "build_muscle" 7 = true
  /\ binary64_within_10 1e12 1 1 false "lose_weight" 0 = true
  /\ binary64_within_10 1e18 70 30 true "maintain" 3 = false.
Proof. vm_compute. repeat split. Qed.

(** The clamp keeps [carbs_g] from going negative, on every input. *)
Lemma carbs_g_nonneg
    (weight_lbs : Q) (height_inches age : Z) (is_male : bool)
    (goal : string) (training_days_per_week : Z) :
  0 <= carbs_g (calculate_macros weight_lbs height_inches age is_male goal
                  training_days_per_week).
Proof.
  unfold calculate_macros; cbn [carbs_g].
  apply PyFacts.round1_nonneg.
  destruct (Py.ltb (Frame.remaining_calories
                      (calculate_macros_locals weight_lbs height_inches age
                         is_male goal training_days_per_week) / 4) 0) eqn:E.
  - destruct (frame_clamped _ _ _ _ _ _ E) as (-> & _). apply Qle_refl.
  - destruct (frame_unclamped _ _ _ _ _ _ E) as (-> & _).
    now apply PyFacts.ltb_false.
Qed.

(** C2 fails on the code.  A 50 lb, 36 in, 100-year-old woman building
    muscle on 0 training days - valid input - has a target of about 181
    kcal, below the 240 kcal of her protein; the clamp sets [carbs_g]
    to 0 and recomputes the fat from what protein leaves, which is
    negative: [fat_g = -6.5], on the exact reading and on the doubles
    alike.  Nothing clamps the recomputed fat as the carbohydrates are
    clamped. *)
Theorem negative_fat_on_valid_input :
  (0 < 50 /\ (0 < 36)%Z /\ (0 < 100)%Z /\ (0 <= 0 <= 7)%Z)
  /\ (calories (calculate_macros 50 36 100 false "build_muscle" 0) = 181%Z
      /\ protein_g (calculate_macros 50 36 100 false "build_muscle" 0) == 60
      /\ carbs_g (calculate_macros 50 36 100 false "build_muscle" 0) == 0
      /\ fat_g (calculate_macros 50 36 100 false "build_muscle" 0) == -6.5)
  /\ Binary64.calculate_macros 50 36 100 false "build_muscle" 0
     = inr {| Binary64.calories := 181;
              Binary64.protein_g := 60;
              Binary64.carbs_g := 0;
              Binary64.fat_g := -6.5 |}
  /\ ~ (0 <= fat_g (calculate_macros 50 36 100 false "build_muscle" 0)
        /\ 0 <= carbs_g (calculate_macros 50 36 100 false "build_muscle" 0)
        /\ 0 <= protein_g (calculate_macros 50 36 100 false "build_muscle" 0)
        /\ (0 < calories
                  (calculate_macros 50 36 100 false "build_muscle" 0))%Z).
Proof.
  split; [repeat split; lia | ].
  split; [vm_compute; repeat split | ].
  split; [vm_compute; reflexivity | ].
  intros (Hfat & _). vm_compute in Hfat. apply Hfat. reflexivity.
Qed.

(** ** Monotonicity in the weight *)

(** C8. With height, age, sex, goal and training days fixed, a larger
    weight gives a BMR, a [protein_g] (before and after rounding) and an
    absolute fat floor [weight_lbs * 0.3] that are each at least those of
    the smaller weight. *)
Theorem weight_monotone
    (weight_lbs1 weight_lbs2 : Q) (height_inches age : Z) (is_male : bool)
    (goal : string) (training_days_per_week : Z) :
  weight_lbs1 <= weight_lbs2 ->
  calculate_bmr_mifflin_st_jeor weight_lbs1 height_inches age is_male
  <= calculate_bmr_mifflin_st_jeor weight_lbs2 height_inches age is_male
  /\ Frame.protein_g
       (calculate_macros_locals weight_lbs1 height_inches age is_male
          goal training_days_per_week)
     <= Frame.protein_g
          (calculate_macros_locals weight_lbs2 height_inches age is_male
             goal training_days_per_week)
  /\ protein_g (calculate_macros weight_lbs1 height_inches age is_male
                  goal training_days_per_week)
     <= protein_g (calculate_macros weight_lbs2 height_inches age is_male
                     goal training_days_per_week)
  /\ Frame.fat_min_g
       (calculate_macros_locals weight_lbs1 height_inches age is_male
          goal training_days_per_week)
     <= Frame.fat_min_g
          (calculate_macros_locals weight_lbs2 height_inches age is_male
             goal training_days_per_week).
Proof.
  intros Hw.
  assert (Frame.protein_g
            (calculate_macros_locals weight_lbs1 height_inches age is_male
               goal training_days_per_week)
          <= Frame.protein_g
               (calculate_macros_locals weight_lbs2 height_inches age is_male
                  goal training_days_per_week)) as Hp.
  { rewrite !frame_protein_g, !frame_protein_per_lb.
    apply Qmult_le_compat_r; [exact Hw | apply get_protein_per_lb_nonneg]. }
  split; [ | split; [exact Hp | split]].
  - unfold calculate_bmr_mifflin_st_jeor. destruct is_male; lra.
  - unfold calculate_macros; cbn [protein_g].
    now apply PyFacts.round1_mono.
  - rewrite !frame_fat_min_g. unfold FAT_MIN_PER_LB. lra.
Qed.

Lemma weight_monotone_witness :
  calculate_bmr_mifflin_st_jeor 140 65 30 false
  <= calculate_bmr_mifflin_st_jeor 180 65 30 false
  /\ protein_g (calculate_macros 140 65 30 false "maintain" 3)
     <= protein_g (calculate_macros 180 65 30 false "maintain" 3).
Proof.
  destruct (weight_monotone 140 180 65 30 false "maintain" 3)
    as (Hb & _ & Hp & _); [discriminate | ].
  exact (conj Hb Hp).
Defined.

(** * Further properties of the macro calculator *)

(** ** The fat bounds when the clamp does not fire *)

(** The fat target always lies at or below 30% of the target calories,
    and at or above 20% of a non-negative target. *)
Lemma fat_target_range
    (weight_lbs : Q) (height_inches age : Z) (is_male : bool)
    (goal : string) (training_days_per_week : Z) :
  Frame.fat_target_calories
    (calculate_macros_locals weight_lbs height_inches age is_male goal
       training_days_per_week)
  <= Frame.target_calories
       (calculate_macros_locals weight_lbs height_inches age is_male goal
          training_days_per_week) * 0.30
  /\ (0 <= Frame.target_calories
             (calculate_macros_locals weight_lbs height_inches age is_male
                goal training_days_per_week) ->
      Frame.target_calories
        (calculate_macros_locals weight_lbs height_inches age is_male goal
           training_days_per_week) * 0.20
      <= Frame.fat_target_calories
           (calculate_macros_locals weight_lbs height_inches age is_male
              goal training_days_per_week)).
Proof.
  rewrite frame_fat_target_calories, PyFacts.min_Qmin_eq,
    frame_fat_min_calories_from_percent, frame_fat_max_calories.
  unfold FAT_PERCENT_MIN, FAT_PERCENT_MAX.
  set (t := Frame.target_calories _). set (a := Frame.fat_min_calories _).
  split; [apply Q.le_min_r | ].
  intros Ht. apply Q.min_glb; [apply Q.le_max_r | lra].
Qed.

(** With a non-negative target, the fat calories the bounds choose
    are between 20% and 30% of the target calories; when the
    carbohydrate fill is not negative either, the returned [fat_g] is
    that choice in grams, rounded, and so lies between the rounded
    grams of the 20% floor and of the 30% ceiling. *)
Theorem fat_share_bounds
    (weight_lbs : Q) (height_inches age : Z) (is_male : bool)
    (goal : string) (training_days_per_week : Z) :
  let l := calculate_macros_locals weight_lbs height_inches age is_male
             goal training_days_per_week in
  0 <= Frame.target_calories l ->
  0 <= Frame.remaining_calories l / 4 ->
  (Frame.target_calories l * 0.20 <= Frame.fat_target_calories l
   /\ Frame.fat_target_calories l <= Frame.target_calories l * 0.30)
  /\ fat_g (calculate_macros weight_lbs height_inches age is_male goal
              training_days_per_week)
     = Py.round1 (Frame.fat_target_calories l / 9)
  /\ Py.round1 (Frame.target_calories l * 0.20 / 9)
     <= fat_g (calculate_macros weight_lbs height_inches age is_male goal
                 training_days_per_week)
  /\ fat_g (calculate_macros weight_lbs height_inches age is_male goal
              training_days_per_week)
     <= Py.round1 (Frame.target_calories l * 0.30 / 9).
Proof.
  intros l Ht Hfill. subst l.
  destruct (fat_target_range weight_lbs height_inches age is_male goal
              training_days_per_week) as (Hhi & Hlo).
  specialize (Hlo Ht).
  assert (fat_g (calculate_macros weight_lbs height_inches age is_male goal
                   training_days_per_week)
          = Py.round1
              (Frame.fat_target_calories
                 (calculate_macros_locals weight_lbs height_inches age
                    is_male goal training_days_per_week) / 9)) as Hg.
  { unfold calculate_macros; cbn [fat_g].
    destruct (frame_unclamped weight_lbs height_inches age is_male goal
                training_days_per_week) as (_ & -> & _);
      [now apply PyFacts.ltb_false | reflexivity]. }
  split; [exact (conj Hlo Hhi) | split; [exact Hg | ]].
  rewrite Hg.
  split; apply PyFacts.round1_mono;
    (apply Qmult_le_compat_r; [assumption | discriminate]).
Qed.

Lemma fat_share_bounds_witness :
  Frame.target_calories
    (calculate_macros_locals 140 65 30 false "maintain" 3) * 0.20
  <= Frame.fat_target_calories
       (calculate_macros_locals 140 65 30 false "maintain" 3)
  /\ Frame.fat_target_calories
       (calculate_macros_locals 140 65 30 false "maintain" 3)
     <= Frame.target_calories
          (calculate_macros_locals 140 65 30 false "maintain" 3) * 0.30.
Proof.
  destruct (fat_share_bounds 140 65 30 false "maintain" 3)
    as (H & _); [vm_compute; discriminate .. | exact H].
Defined.

(** When the calories of the 0.3 g/lb floor do not exceed the 30%
    ceiling, the fat calories the bounds choose are at least those of
    the floor; when the carbohydrate fill is not negative either, the
    returned [fat_g] is at least the floor's calories in grams,
    rounded. *)
Theorem fat_floor_kept
    (weight_lbs : Q) (height_inches age : Z) (is_male : bool)
    (goal : string) (training_days_per_week : Z) :
  let l := calculate_macros_locals weight_lbs height_inches age is_male
             goal training_days_per_week in
  Frame.fat_min_calories l <= Frame.fat_max_calories l ->
  0 <= Frame.remaining_calories l / 4 ->
  Frame.fat_min_calories l = weight_lbs * 0.3 * 9
  /\ Frame.fat_min_calories l <= Frame.fat_target_calories l
  /\ Py.round1 (Frame.fat_min_calories l / 9)
     <= fat_g (calculate_macros weight_lbs height_inches age is_male
                 goal training_days_per_week).
Proof.
  intros l Hroom Hfill. subst l.
  assert (Frame.fat_min_calories
            (calculate_macros_locals weight_lbs height_inches age is_male
               goal training_days_per_week)
          <= Frame.fat_target_calories
               (calculate_macros_locals weight_lbs height_inches age
                  is_male goal training_days_per_week)) as H.
  { rewrite frame_fat_target_calories, PyFacts.min_Qmin_eq.
    apply Q.min_glb; [apply Q.le_max_l | exact Hroom]. }
  split; [now rewrite frame_fat_min_calories, frame_fat_min_g | ].
  split; [exact H | ].
  unfold calculate_macros; cbn [fat_g].
  destruct (frame_unclamped weight_lbs height_inches age is_male goal
              training_days_per_week) as (_ & -> & _);
    [now apply PyFacts.ltb_false | ].
  apply PyFacts.round1_mono.
  apply Qmult_le_compat_r; [exact H | discriminate].
Qed.

Lemma fat_floor_kept_witness :
  Frame.fat_min_calories
    (calculate_macros_locals 140 65 30 false "maintain" 3)
  <= Frame.fat_target_calories
       (calculate_macros_locals 140 65 30 false "maintain" 3)
  /\ Py.round1
       (Frame.fat_min_calories
          (calculate_macros_locals 140 65 30 false "maintain" 3) / 9)
     <= fat_g (calculate_macros 140 65 30 false "maintain" 3).
Proof.
  destruct (fat_floor_kept 140 65 30 false "maintain" 3)
    as (_ & H1 & H2); [vm_compute; discriminate .. | exact (conj H1 H2)].
Defined.

(** ** The clamp *)

(** When the carbohydrate fill is negative, the recomputed fat calories
    are the target less the protein calories, strictly below what the
    fat bounds had chosen; the returned [fat_g] is at most the rounded
    bounded value. *)
Theorem clamp_lowers_fat
    (weight_lbs : Q) (height_inches age : Z) (is_male : bool)
    (goal : string) (training_days_per_week : Z) :
  let l := calculate_macros_locals weight_lbs height_inches age is_male
             goal training_days_per_week in
  Frame.remaining_calories l / 4 < 0 ->
  Frame.fat_calories l
  == Frame.target_calories l - Frame.protein_calories l
  /\ Frame.fat_calories l < Frame.fat_target_calories l
  /\ fat_g (calculate_macros weight_lbs height_inches age is_male
              goal training_days_per_week)
     <= Py.round1 (Frame.fat_target_calories l / 9).
Proof.
  intros l Hfill. subst l.
  destruct (frame_clamped weight_lbs height_inches age is_male goal
              training_days_per_week) as (_ & Hfc & Hg).
  { now apply PyFacts.ltb_true. }
  rewrite frame_remaining_calories in Hfill.
  set (t := Frame.target_calories _) in *.
  set (pc := Frame.protein_calories _) in *.
  set (ft := Frame.fat_target_calories _) in *.
  assert (ft / 9 * 9 == ft) as E by field.
  assert (t - pc < ft) as Hlt.
  { assert ((t - pc - ft / 9 * 9) / 4 == (t - pc - ft) * (1 # 4)) as E4
      by field.
    rewrite E4 in Hfill. lra. }
  split; [rewrite Hfc; reflexivity | split; [rewrite Hfc; exact Hlt | ]].
  unfold calculate_macros; cbn [fat_g]. apply PyFacts.round1_mono.
  rewrite Hg, Hfc.
  assert ((t - pc) / 9 == (t - pc) * (1 # 9)) as -> by field.
  assert (ft / 9 == ft * (1 # 9)) as -> by field.
  lra.
Qed.

Lemma clamp_lowers_fat_witness :
  Frame.fat_calories
    (calculate_macros_locals 50 36 100 false "build_muscle" 0)
  < Frame.fat_target_calories
      (calculate_macros_locals 50 36 100 false "build_muscle" 0).
Proof.
  destruct (clamp_lowers_fat 50 36 100 false "build_muscle" 0)
    as (_ & H & _); [vm_compute; reflexivity | exact H].
Defined.

(** Protein calories of at most 69% of a non-negative target leave
    the clamp untouched: [carbs_g] is the fill.  Protein calories of at
    least 81% of a positive target always fire it: [carbs_g] is 0 and
    fat gets what protein leaves.  (Between the two, around 70% and
    80%, the outcome turns on the fat bound in force and, on the
    doubles, on the last bit.) *)
Theorem clamp_thresholds
    (weight_lbs : Q) (height_inches age : Z) (is_male : bool)
    (goal : string) (training_days_per_week : Z) :
  let l := calculate_macros_locals weight_lbs height_inches age is_male
             goal training_days_per_week in
  let t := Frame.target_calories l in
  let pc := Frame.protein_calories l in
  (0 <= t -> pc <= t * 0.69 ->
   Frame.carbs_g l = Frame.remaining_calories l / 4
   /\ 0 <= Frame.carbs_g l)
  /\ (0 < t -> t * 0.81 <= pc ->
      Frame.carbs_g l = 0 /\ Frame.fat_calories l = t - pc).
Proof.
  intros l t pc. subst l t pc.
  destruct (fat_target_range weight_lbs height_inches age is_male goal
              training_days_per_week) as (Hhi & Hlo).
  assert (Frame.remaining_calories
            (calculate_macros_locals weight_lbs height_inches age is_male
               goal training_days_per_week) / 4
          == (Frame.target_calories
                (calculate_macros_locals weight_lbs height_inches age
                   is_male goal training_days_per_week)
              - Frame.protein_calories
                  (calculate_macros_locals weight_lbs height_inches age
                     is_male goal training_days_per_week)
              - Frame.fat_target_calories
                  (calculate_macros_locals weight_lbs height_inches age
                     is_male goal training_days_per_week)) * (1 # 4)) as E
    by (rewrite frame_remaining_calories; field).
  split.
  - intros Ht Hp.
    assert (0 <= Frame.remaining_calories
                   (calculate_macros_locals weight_lbs height_inches age
                      is_male goal training_days_per_week) / 4) as Hfill
      by (rewrite E; lra).
    destruct (frame_unclamped weight_lbs height_inches age is_male goal
                training_days_per_week) as (Hc & _).
    { now apply PyFacts.ltb_false. }
    split; [exact Hc | rewrite Hc; exact Hfill].
  - intros Ht Hp. specialize (Hlo (Qlt_le_weak _ _ Ht)).
    destruct (frame_clamped weight_lbs height_inches age is_male goal
                training_days_per_week) as (Hc & Hfc & _).
    { apply PyFacts.ltb_true. rewrite E. lra. }
    split; [exact Hc | exact Hfc].
Qed.

Lemma clamp_thresholds_witness :
  (Frame.carbs_g (calculate_macros_locals 140 65 30 false "maintain" 3)
   = Frame.remaining_calories
       (calculate_macros_locals 140 65 30 false "maintain" 3) / 4)
  /\ Frame.carbs_g
       (calculate_macros_locals 50 36 100 false "build_muscle" 0) = 0.
Proof.
  split.
  - destruct (clamp_thresholds 140 65 30 false "maintain" 3) as (H & _).
    destruct H as (H & _); [vm_compute; discriminate .. | exact H].
  - destruct (clamp_thresholds 50 36 100 false "build_muscle" 0)
      as (_ & H).
    destruct H as (H & _);
      [vm_compute; reflexivity | vm_compute; discriminate | exact H].
Defined.

(** ** The lookups *)

(** Every adjustment the goal table can return, default included. *)
Lemma get_goal_adjustment_values (goal : string) :
  get_goal_adjustment goal ∈ [-0.20; 0.10; 0.0; 0.05].
Proof.
  unfold get_goal_adjustment, Py.get.
  destruct (goal_adjustment_map !! goal) as [q|] eqn:E; simpl.
  - apply elem_of_list_to_map_2 in E.
    repeat (apply elem_of_cons in E as [E|E];
            [injection E as _ ->; repeat constructor | ]).
    inversion E.
  - repeat constructor.
Qed.

Lemma get_activity_multiplier_values (training_days_per_week : Z) :
  get_activity_multiplier training_days_per_week
  ∈ [1.2; 1.375; 1.55; 1.725; 1.9].
Proof.
  unfold get_activity_multiplier.
  destruct (_ =? _)%Z; [ | destruct (_ <=? 2)%Z;
    [ | destruct (_ <=? 4)%Z; [ | destruct (_ <=? 6)%Z]]];
    repeat constructor.
Qed.

Lemma goal_adjustment_range (goal : string) :
  -0.20 <= get_goal_adjustment goal <= 0.10.
Proof.
  pose proof (get_goal_adjustment_values goal) as H.
  repeat (apply elem_of_cons in H as [-> | H]; [split; discriminate | ]).
  inversion H.
Qed.

Lemma protein_per_lb_range (goal : string) :
  0.8 <= get_protein_per_lb goal <= 1.2.
Proof.
  pose proof (get_protein_per_lb_values goal) as H.
  repeat (apply elem_of_cons in H as [-> | H]; [split; discriminate | ]).
  inversion H.
Qed.

Lemma activity_multiplier_range (training_days_per_week : Z) :
  1.2 <= get_activity_multiplier training_days_per_week <= 1.9.
Proof.
  pose proof (get_activity_multiplier_values training_days_per_week) as H.
  repeat (apply elem_of_cons in H as [-> | H]; [split; discriminate | ]).
  inversion H.
Qed.

Lemma activity_multiplier_le (days1 days2 : Z) :
  (0 <= days1 <= days2)%Z ->
  get_activity_multiplier days1 <= get_activity_multiplier days2.
Proof.
  intros Hd. unfold get_activity_multiplier.
  destruct (Z.eqb_spec days1 0); destruct (Z.leb_spec days1 2);
    destruct (Z.leb_spec days1 4); destruct (Z.leb_spec days1 6);
    destruct (Z.eqb_spec days2 0); destruct (Z.leb_spec days2 2);
    destruct (Z.leb_spec days2 4); destruct (Z.leb_spec days2 6);
    try (exfalso; lia); discriminate.
Qed.

(** Whatever the goal string and the day count, known or not, in range
    or not: the calorie adjustment is between -20% and +10%, the
    protein between 0.8 and 1.2 g/lb, the activity multiplier between
    1.2 and 1.9.  So the target is between 80% and 110% of a
    non-negative maintenance, and the protein grams between 0.8 and 1.2
    times a non-negative weight. *)
Theorem lookup_ranges
    (weight_lbs : Q) (height_inches age : Z) (is_male : bool)
    (goal : string) (training_days_per_week : Z) :
  let l := calculate_macros_locals weight_lbs height_inches age is_male
             goal training_days_per_week in
  (-0.20 <= get_goal_adjustment goal <= 0.10)
  /\ (0.8 <= get_protein_per_lb goal <= 1.2)
  /\ (1.2 <= get_activity_multiplier training_days_per_week <= 1.9)
  /\ (0 <= Frame.maintenance_calories l ->
      Frame.maintenance_calories l * 0.8 <= Frame.target_calories l
      <= Frame.maintenance_calories l * 1.1)
  /\ (0 <= weight_lbs ->
      weight_lbs * 0.8 <= Frame.protein_g l <= weight_lbs * 1.2).
Proof.
  intros l. subst l.
  pose proof (goal_adjustment_range goal) as Ha.
  pose proof (protein_per_lb_range goal) as Hp.
  pose proof (activity_multiplier_range training_days_per_week) as Hm.
  split; [exact Ha | split; [exact Hp | split; [exact Hm | split]]].
  - rewrite frame_target_calories, frame_goal_adj.
    set (M := Frame.maintenance_calories _).
    set (adj := get_goal_adjustment goal) in *.
    intros HM. split; nra.
  - rewrite frame_protein_g, frame_protein_per_lb.
    set (p := get_protein_per_lb goal) in *.
    intros Hw. split; nra.
Qed.

Lemma lookup_ranges_witness :
  Frame.maintenance_calories
    (calculate_macros_locals 180 70 35 true "no_such_goal" 9) * 0.8
  <= Frame.target_calories
       (calculate_macros_locals 180 70 35 true "no_such_goal" 9)
  /\ 180 * 0.8
     <= Frame.protein_g
          (calculate_macros_locals 180 70 35 true "no_such_goal" 9).
Proof.
  destruct (lookup_ranges 180 70 35 true "no_such_goal" 9)
    as (_ & _ & _ & Ht & Hp).
  split; [apply Ht; vm_compute; discriminate
         | apply Hp; vm_compute; discriminate].
Defined.

(** ** Orderings *)

(** More training days never lower the multiplier, from 0 days upwards;
    any count of 7 or more gets 1.9. *)
Theorem get_activity_multiplier_mono (days1 days2 : Z) :
  (0 <= days1 <= days2)%Z ->
  get_activity_multiplier days1 <= get_activity_multiplier days2
  /\ ((7 <= days2)%Z -> get_activity_multiplier days2 = 1.9).
Proof.
  intros Hd. split; [now apply activity_multiplier_le | ].
  intros H7. unfold get_activity_multiplier.
  destruct (Z.eqb_spec days2 0); destruct (Z.leb_spec days2 2);
    destruct (Z.leb_spec days2 4); destruct (Z.leb_spec days2 6);
    try reflexivity; exfalso; lia.
Qed.

Lemma get_activity_multiplier_mono_witness :
  get_activity_multiplier 2 <= get_activity_multiplier 12
  /\ get_activity_multiplier 12 = 1.9.
Proof.
  destruct (get_activity_multiplier_mono 2 12 ltac:(lia)) as (H & H7).
  split; [exact H | apply H7; lia].
Defined.

Lemma get_goal_adjustment_known :
  get_goal_adjustment "lose_weight" = -0.20
  /\ get_goal_adjustment "build_muscle" = 0.10
  /\ get_goal_adjustment "maintain" = 0.0
  /\ get_goal_adjustment "improve_endurance" = 0.05
  /\ get_goal_adjustment "general_fitness" = 0.0.
Proof. vm_compute. repeat split. Qed.

(** The target calories follow the maintenance calories and the goal
    adjustment alone. *)
Lemma target_calories_eq
    (weight_lbs : Q) (height_inches age : Z) (is_male : bool)
    (goal : string) (training_days_per_week : Z) :
  Frame.target_calories
    (calculate_macros_locals weight_lbs height_inches age is_male goal
       training_days_per_week)
  = calculate_bmr_mifflin_st_jeor weight_lbs height_inches age is_male
    * get_activity_multiplier training_days_per_week
    * (1 + get_goal_adjustment goal).
Proof.
  now rewrite frame_target_calories, frame_maintenance_calories, frame_bmr,
    frame_activity_mult, frame_goal_adj.
Qed.

(** With a positive BMR the goals order the target calories:
    lose_weight below maintain, maintain equal to general_fitness and to
    any unknown goal, improve_endurance above, build_muscle highest; the
    returned [calories] follow the same order. *)
Theorem goal_order
    (weight_lbs : Q) (height_inches age : Z) (is_male : bool)
    (training_days_per_week : Z) (unknown : string) :
  let target goal :=
    Frame.target_calories
      (calculate_macros_locals weight_lbs height_inches age is_male goal
         training_days_per_week) in
  let cal goal :=
    calories (calculate_macros weight_lbs height_inches age is_male goal
                training_days_per_week) in
  0 < calculate_bmr_mifflin_st_jeor weight_lbs height_inches age is_male ->
  unknown ∉ known_goals ->
  (target "lose_weight" < target "maintain"
   /\ target "maintain" == target "general_fitness"
   /\ target "maintain" == target unknown
   /\ target "maintain" < target "improve_endurance"
   /\ target "improve_endurance" < target "build_muscle")
  /\ (cal "lose_weight" <= cal "maintain"
      /\ cal "maintain" = cal "general_fitness"
      /\ cal "maintain" = cal unknown
      /\ cal "maintain" <= cal "improve_endurance"
      /\ cal "improve_endurance" <= cal "build_muscle")%Z.
Proof.
  intros target cal Hbmr Hunk.
  destruct get_goal_adjustment_known as (Hl & Hb & Hm & He & Hg).
  pose proof (get_goal_adjustment_unknown unknown Hunk) as Hu.
  pose proof (get_activity_multiplier_values training_days_per_week) as Hv.
  assert (0 < calculate_bmr_mifflin_st_jeor weight_lbs height_inches age
                is_male
              * get_activity_multiplier training_days_per_week) as HM.
  { repeat (apply elem_of_cons in Hv as [-> | Hv]; [lra | ]). inversion Hv. }
  assert (target "lose_weight" < target "maintain"
          /\ target "maintain" == target "general_fitness"
          /\ target "maintain" == target unknown
          /\ target "maintain" < target "improve_endurance"
          /\ target "improve_endurance" < target "build_muscle") as Ht.
  { subst target; cbv beta. rewrite !target_calories_eq.
    rewrite Hl, Hb, Hm, He, Hg, Hu. unfold GOAL_MAINTAIN.
    set (M := _ * get_activity_multiplier _) in *.
    repeat split; lra. }
  split; [exact Ht | ].
  destruct Ht as (H1 & H2 & H3 & H4 & H5).
  subst cal target; cbv beta in *. unfold calculate_macros; cbn [calories].
  split; [ | split; [ | split; [ | split]]].
  - apply PyFacts.round_mono. now apply Qlt_le_weak.
  - now apply PyFacts.round_comp.
  - now apply PyFacts.round_comp.
  - apply PyFacts.round_mono. now apply Qlt_le_weak.
  - apply PyFacts.round_mono. now apply Qlt_le_weak.
Qed.

Lemma goal_order_witness :
  (calories (calculate_macros 180 70 35 true "lose_weight" 4)
   <= calories (calculate_macros 180 70 35 true "maintain" 4))%Z
  /\ calories (calculate_macros 180 70 35 true "maintain" 4)
     = calories (calculate_macros 180 70 35 true "keto" 4)
  /\ (calories (calculate_macros 180 70 35 true "maintain" 4)
      <= calories (calculate_macros 180 70 35 true "build_muscle" 4))%Z.
Proof.
  assert ("keto" ∉ known_goals) as Hg.
  { unfold known_goals. rewrite !not_elem_of_cons.
    repeat split; try discriminate. apply not_elem_of_nil. }
  destruct (goal_order 180 70 35 true 4 "keto" ltac:(vm_compute; reflexivity)
              Hg) as (_ & H1 & _ & H3 & H4 & H5).
  split; [exact H1 | split; [exact H3 | ]].
  exact (Z.le_trans _ _ _ H4 H5).
Defined.

(** The factor between BMR and target calories is positive for every
    day count and goal string. *)
Lemma target_factor_pos (goal : string) (training_days_per_week : Z) :
  0 < get_activity_multiplier training_days_per_week
      * (1 + get_goal_adjustment goal).
Proof.
  pose proof (get_activity_multiplier_values training_days_per_week) as Hm.
  pose proof (get_goal_adjustment_values goal) as Ha.
  repeat (apply elem_of_cons in Hm as [-> | Hm];
          [ repeat (apply elem_of_cons in Ha as [-> | Ha];
                    [reflexivity | ]); inversion Ha | ]).
  inversion Hm.
Qed.

(** A heavier, taller or younger person never gets fewer calories,
    whatever the sex, goal and training days. *)
Theorem calories_monotone
    (weight_lbs1 weight_lbs2 : Q) (height_inches1 height_inches2 : Z)
    (age1 age2 : Z) (is_male : bool) (goal : string)
    (training_days_per_week : Z) :
  weight_lbs1 <= weight_lbs2 ->
  (height_inches1 <= height_inches2)%Z ->
  (age2 <= age1)%Z ->
  (calories (calculate_macros weight_lbs1 height_inches1 age1 is_male goal
               training_days_per_week)
   <= calories (calculate_macros weight_lbs2 height_inches2 age2 is_male
                  goal training_days_per_week))%Z.
Proof.
  intros Hw Hh Ha. unfold calculate_macros; cbn [calories].
  apply PyFacts.round_mono. rewrite !target_calories_eq.
  pose proof (target_factor_pos goal training_days_per_week) as Hf.
  assert (calculate_bmr_mifflin_st_jeor weight_lbs1 height_inches1 age1
            is_male
          <= calculate_bmr_mifflin_st_jeor weight_lbs2 height_inches2 age2
               is_male) as Hb.
  { unfold calculate_bmr_mifflin_st_jeor.
    rewrite !inject_Z_mult. change (inject_Z 5) with 5.
    rewrite Zle_Qle in Hh, Ha. destruct is_male; lra. }
  set (b1 := calculate_bmr_mifflin_st_jeor _ _ _ _) in *.
  set (b2 := calculate_bmr_mifflin_st_jeor _ _ _ _) in *.
  set (m := get_activity_multiplier _) in *.
  set (a := get_goal_adjustment _) in *.
  nra.
Qed.

Lemma calories_monotone_witness :
  (calories (calculate_macros 140 65 30 false "maintain" 3)
   <= calories (calculate_macros 180 70 25 false "maintain" 3))%Z.
Proof.
  apply calories_monotone; [discriminate | lia | lia].
Defined.

(** With a non-negative BMR, more training days (from 0 upwards) never
    give fewer calories. *)
Theorem calories_monotone_days
    (weight_lbs : Q) (height_inches age : Z) (is_male : bool)
    (goal : string) (days1 days2 : Z) :
  0 <= calculate_bmr_mifflin_st_jeor weight_lbs height_inches age is_male ->
  (0 <= days1 <= days2)%Z ->
  (calories (calculate_macros weight_lbs height_inches age is_male goal
               days1)
   <= calories (calculate_macros weight_lbs height_inches age is_male goal
                  days2))%Z.
Proof.
  intros Hb Hd. unfold calculate_macros; cbn [calories].
  apply PyFacts.round_mono. rewrite !target_calories_eq.
  pose proof (activity_multiplier_le days1 days2 Hd) as Hm.
  pose proof (goal_adjustment_range goal) as (Ha & _).
  set (b := calculate_bmr_mifflin_st_jeor _ _ _ _) in *.
  set (m1 := get_activity_multiplier days1) in *.
  set (m2 := get_activity_multiplier days2) in *.
  set (a := get_goal_adjustment _) in *.
  assert (b * m1 <= b * m2) by nra.
  nra.
Qed.

Lemma calories_monotone_days_witness :
  (calories (calculate_macros 140 65 30 false "maintain" 1)
   <= calories (calculate_macros 140 65 30 false "maintain" 6))%Z.
Proof.
  apply calories_monotone_days; [vm_compute; discriminate | lia].
Defined.

(** [round] keeps a gap, less one. *)
Lemma round_gap (x y : Q) (gap : Z) :
  x + inject_Z gap + 1 <= y -> (Py.round x + gap <= Py.round y)%Z.
Proof.
  intros H.
  pose proof (PyFacts.round_near x) as [_ Hx].
  pose proof (PyFacts.round_near y) as [Hy _].
  rewrite Zle_Qle, inject_Z_plus. lra.
Qed.

Lemma bmr_sex_gap (weight_lbs : Q) (height_inches age : Z) :
  calculate_bmr_mifflin_st_jeor weight_lbs height_inches age true
  == calculate_bmr_mifflin_st_jeor weight_lbs height_inches age false + 166.
Proof. unfold calculate_bmr_mifflin_st_jeor. lra. Qed.

(** The target calories of a man exceed those of a woman with the same
    other inputs by 166 times the activity multiplier and the goal
    factor, which is at least 159.36. *)
Lemma target_sex_gap
    (weight_lbs : Q) (height_inches age : Z) (goal : string)
    (training_days_per_week : Z) :
  Frame.target_calories
    (calculate_macros_locals weight_lbs height_inches age false goal
       training_days_per_week) + 159.36
  <= Frame.target_calories
       (calculate_macros_locals weight_lbs height_inches age true goal
          training_days_per_week).
Proof.
  rewrite !target_calories_eq.
  pose proof (bmr_sex_gap weight_lbs height_inches age) as Hgap.
  pose proof (goal_adjustment_range goal) as (Ha & _).
  pose proof (activity_multiplier_range training_days_per_week) as (Hm & _).
  set (bm := calculate_bmr_mifflin_st_jeor _ _ _ true) in *.
  set (bf := calculate_bmr_mifflin_st_jeor _ _ _ false) in *.
  set (m := get_activity_multiplier _) in *.
  set (a := get_goal_adjustment _) in *.
  assert (bm * m * (1 + a) == bf * m * (1 + a) + 166 * (m * (1 + a))) as ->
    by (rewrite Hgap; ring).
  assert (159.36 <= 166 * (m * (1 + a))) by nra.
  lra.
Qed.

Lemma calories_female_le_male
    (weight_lbs : Q) (height_inches age : Z) (goal : string)
    (training_days_per_week : Z) :
  (calories (calculate_macros weight_lbs height_inches age false goal
               training_days_per_week)
   <= calories (calculate_macros weight_lbs height_inches age true goal
                  training_days_per_week))%Z.
Proof.
  unfold calculate_macros; cbn [calories]. apply PyFacts.round_mono.
  pose proof (target_sex_gap weight_lbs height_inches age goal
                training_days_per_week).
  lra.
Qed.

(** With the other inputs the same, a man never gets a lower BMR or
    fewer calories than a woman, and gets the same protein.  For
    weights, heights and ages of magnitude at most 10^12, where the
    doubles keep the offset of 166 between the two BMR formulas, he
    gets at least 158 calories more. *)
Theorem sex_gap
    (weight_lbs : Q) (height_inches age : Z) (goal : string)
    (training_days_per_week : Z) :
  calculate_bmr_mifflin_st_jeor weight_lbs height_inches age false
  <= calculate_bmr_mifflin_st_jeor weight_lbs height_inches age true
  /\ (calories (calculate_macros weight_lbs height_inches age false goal
                  training_days_per_week)
      <= calories (calculate_macros weight_lbs height_inches age true goal
                     training_days_per_week))%Z
  /\ protein_g (calculate_macros weight_lbs height_inches age false goal
                  training_days_per_week)
     = protein_g (calculate_macros weight_lbs height_inches age true goal
                    training_days_per_week)
  /\ (- 1000000000000 <= weight_lbs <= 1000000000000 ->
      (- 1000000000000 <= height_inches <= 1000000000000)%Z ->
      (- 1000000000000 <= age <= 1000000000000)%Z ->
      (calories (calculate_macros weight_lbs height_inches age false goal
                   training_days_per_week) + 158
       <= calories (calculate_macros weight_lbs height_inches age true goal
                      training_days_per_week))%Z).
Proof.
  split; [pose proof (bmr_sex_gap weight_lbs height_inches age); lra | ].
  split; [apply calories_female_le_male | split].
  - unfold calculate_macros; cbn [protein_g].
    now rewrite !frame_protein_g, !frame_protein_per_lb.
  - intros _ _ _. unfold calculate_macros; cbn [calories].
    apply round_gap. change (inject_Z 158) with 158.
    pose proof (target_sex_gap weight_lbs height_inches age goal
                  training_days_per_week).
    lra.
Qed.

Lemma sex_gap_witness :
  (calories (calculate_macros 140 65 30 false "maintain" 3) + 158
   <= calories (calculate_macros 140 65 30 true "maintain" 3))%Z.
Proof.
  destruct (sex_gap 140 65 30 "maintain" 3) as (_ & _ & _ & H).
  apply H; [split; discriminate | lia | lia].
Defined.

(** * The onboarding route *)

Lemma gender_is_male_true (gender : option string) :
  gender_is_male gender = true <-> gender = Some "male".
Proof.
  destruct gender as [g|]; simpl; [ | split; discriminate].
  rewrite String.eqb_eq. split; [now intros -> | now intros [= ->]].
Qed.

Lemma gender_is_male_false (gender : option string) :
  gender_is_male gender = false <-> gender <> Some "male".
Proof.
  rewrite <- gender_is_male_true. destruct (gender_is_male gender);
    split; congruence.
Qed.

(** Two onboarding requests get the same macro targets as soon as they
    agree on weight, age, goal, training days, on the total
    [height_feet * 12 + height_inches], and on whether the gender is
    exactly ["male"]; no other field of the request plays a part. *)
Theorem onboarding_inputs (r1 r2 : OnboardingRequest.t) :
  OnboardingRequest.weight_pounds r1 = OnboardingRequest.weight_pounds r2 ->
  OnboardingRequest.age r1 = OnboardingRequest.age r2 ->
  OnboardingRequest.goal r1 = OnboardingRequest.goal r2 ->
  OnboardingRequest.training_days_per_week r1
  = OnboardingRequest.training_days_per_week r2 ->
  (OnboardingRequest.height_feet r1 * 12 + OnboardingRequest.height_inches r1
   = OnboardingRequest.height_feet r2 * 12
     + OnboardingRequest.height_inches r2)%Z ->
  (OnboardingRequest.gender r1 = Some "male"
   <-> OnboardingRequest.gender r2 = Some "male") ->
  submit_onboarding_macro_targets r1 = submit_onboarding_macro_targets r2.
Proof.
  intros Hw Ha Hg Hd Hh Hs. unfold submit_onboarding_macro_targets.
  rewrite Hw, Ha, Hg, Hd, Hh.
  assert (gender_is_male (OnboardingRequest.gender r1)
          = gender_is_male (OnboardingRequest.gender r2)) as ->.
  { rewrite <- !gender_is_male_true in Hs.
    destruct (gender_is_male _), (gender_is_male _); intuition congruence. }
  reflexivity.
Qed.

(** A gender other than exactly ["male"] - no gender, ["Male"],
    ["female"] - selects the female formula, and then the stored
    calories are never above those of the same request with gender
    ["male"]. *)
Theorem onboarding_gender (r_other r_male : OnboardingRequest.t) :
  OnboardingRequest.gender r_other <> Some "male" ->
  OnboardingRequest.gender r_male = Some "male" ->
  OnboardingRequest.weight_pounds r_other
  = OnboardingRequest.weight_pounds r_male ->
  OnboardingRequest.age r_other = OnboardingRequest.age r_male ->
  OnboardingRequest.goal r_other = OnboardingRequest.goal r_male ->
  OnboardingRequest.training_days_per_week r_other
  = OnboardingRequest.training_days_per_week r_male ->
  OnboardingRequest.height_feet r_other = OnboardingRequest.height_feet r_male ->
  OnboardingRequest.height_inches r_other
  = OnboardingRequest.height_inches r_male ->
  submit_onboarding_macro_targets r_other
  = calculate_macros
      (OnboardingRequest.weight_pounds r_other)
      (OnboardingRequest.height_feet r_other * 12
       + OnboardingRequest.height_inches r_other)
      (OnboardingRequest.age r_other) false
      (OnboardingRequest.goal r_other)
      (OnboardingRequest.training_days_per_week r_other)
  /\ submit_onboarding_macro_targets r_male
     = calculate_macros
         (OnboardingRequest.weight_pounds r_male)
         (OnboardingRequest.height_feet r_male * 12
          + OnboardingRequest.height_inches r_male)
         (OnboardingRequest.age r_male) true
         (OnboardingRequest.goal r_male)
         (OnboardingRequest.training_days_per_week r_male)
  /\ (calories (submit_onboarding_macro_targets r_other)
      <= calories (submit_onboarding_macro_targets r_male))%Z.
Proof.
  intros Ho Hm Hw Ha Hg Hd Hf Hi.
  apply gender_is_male_false in Ho. apply gender_is_male_true in Hm.
  unfold submit_onboarding_macro_targets. rewrite Ho, Hm, Hw, Ha, Hg, Hd, Hf, Hi.
  split; [reflexivity | split; [reflexivity | ]]. cbn [calories].
  apply calories_female_le_male.
Qed.

Lemma onboarding_inputs_witness :
  submit_onboarding_macro_targets (test_request (Some "male") 6 0)
  = submit_onboarding_macro_targets (test_request (Some "male") 5 12).
Proof.
  apply onboarding_inputs; reflexivity.
Defined.

Lemma onboarding_gender_witness :
  submit_onboarding_macro_targets (test_request (Some "Male") 6 0)
  = calculate_macros 180.0 72 30 false "build_muscle" 4
  /\ (calories
        (submit_onboarding_macro_targets (test_request (Some "Male") 6 0))
      <= calories
           (submit_onboarding_macro_targets (test_request (Some "male") 6 0)))%Z.
Proof.
  destruct (onboarding_gender (test_request (Some "Male") 6 0)
              (test_request (Some "male") 6 0)) as (H1 & _ & H3);
    try reflexivity; [discriminate | ].
  exact (conj H1 H3).
Defined.

(** * The database client *)

(** ** [str.split] *)

Module PyStrFacts.

Lemma split_nonempty (sep : ascii) (s : string) : PyStr.split sep s <> [].
Proof.
  destruct s as [|c s]; simpl; [discriminate | ].
  destruct (Ascii.eqb c sep); [discriminate | ].
  destruct (PyStr.split sep s); discriminate.
Qed.

(** A string without the separator is its own single piece. *)
Lemma split_without (sep : ascii) (s : string) :
  PyStr.contains sep s = false -> PyStr.split sep s = [s].
Proof.
  induction s as [|c s IH]; simpl; [reflexivity | ].
  intros H. apply orb_false_iff in H as [Hc Hs].
  rewrite Hc, (IH Hs). reflexivity.
Qed.

(** Splitting distributes over a separator:
    [(a + sep + b).split(sep) == a.split(sep) + b.split(sep)]. *)
Lemma split_app (sep : ascii) (a b : string) :
  PyStr.split sep (a +:+ String sep b)
  = PyStr.split sep a ++ PyStr.split sep b.
Proof.
  induction a as [|c a IH]; simpl.
  - now rewrite Ascii.eqb_refl.
  - rewrite IH. destruct (Ascii.eqb c sep); [reflexivity | ].
    pose proof (split_nonempty sep a) as Hne.
    destruct (PyStr.split sep a); [congruence | reflexivity].
Qed.

Lemma app_assoc (a b c : string) : (a +:+ b) +:+ c = a +:+ (b +:+ c).
Proof.
  induction a as [|x a IH]; [reflexivity | ].
  change (String x ((a +:+ b) +:+ c) = String x (a +:+ (b +:+ c))).
  now rewrite IH.
Qed.

(** No piece holds the separator. *)
Lemma split_pieces_free (sep : ascii) (s : string) :
  Forall (fun piece => PyStr.contains sep piece = false)
         (PyStr.split sep s).
Proof.
  induction s as [|c s IH]; simpl; [repeat constructor | ].
  destruct (Ascii.eqb c sep) eqn:E; [constructor; [reflexivity | exact IH] | ].
  destruct (PyStr.split sep s) as [|piece pieces];
    [repeat constructor; simpl; now rewrite E | ].
  inversion IH as [|? ? Hp Hps]; subst.
  constructor; [simpl; now rewrite E, Hp | exact Hps].
Qed.

(** A character absent from the string is absent from every piece. *)
Lemma split_pieces_keep_free (c sep : ascii) (s : string) :
  PyStr.contains c s = false ->
  Forall (fun piece => PyStr.contains c piece = false)
         (PyStr.split sep s).
Proof.
  induction s as [|c' s IH]; simpl; [repeat constructor | ].
  intros H. apply orb_false_iff in H as [Hc Hs]. specialize (IH Hs).
  destruct (Ascii.eqb c' sep); [constructor; [reflexivity | exact IH] | ].
  destruct (PyStr.split sep s) as [|piece pieces];
    [repeat constructor; simpl; now rewrite Hc | ].
  inversion IH as [|? ? Hp Hps]; subst.
  constructor; [simpl; now rewrite Hc, Hp | exact Hps].
Qed.

End PyStrFacts.

(** ** The database name *)

Lemma db_name_of_last_segment (pre segment : string) :
  PyStr.contains "/" segment = false ->
  MongoDBClient.db_name_of_uri (pre +:+ String "/" segment)
  = head (PyStr.split "?" segment).
Proof.
  intros Hseg. unfold MongoDBClient.db_name_of_uri.
  rewrite PyStrFacts.split_app, (PyStrFacts.split_without _ _ Hseg).
  now rewrite last_snoc.
Qed.

(** The indexing in [split("/")[-1].split("?")[0]] never fails, and the
    name it yields holds neither ["/"] nor ["?"]. *)
Theorem db_name_of_uri_total (uri : string) :
  exists name,
    MongoDBClient.db_name_of_uri uri = Some name
    /\ PyStr.contains "/" name = false
    /\ PyStr.contains "?" name = false.
Proof.
  unfold MongoDBClient.db_name_of_uri.
  pose proof (PyStrFacts.split_nonempty "/" uri) as Hne.
  pose proof (PyStrFacts.split_pieces_free "/" uri) as Hfree.
  destruct (last (PyStr.split "/" uri)) as [segment|] eqn:Hlast;
    [ | exfalso; apply Hne; now apply last_None ].
  assert (PyStr.contains "/" segment = false) as Hseg.
  { apply last_Some in Hlast as [l' Hl']. rewrite Hl' in Hfree.
    apply Forall_app in Hfree as [_ Hfree]. now inversion Hfree. }
  simpl.
  pose proof (PyStrFacts.split_nonempty "?" segment) as Hne'.
  pose proof (PyStrFacts.split_pieces_free "?" segment) as Hq.
  pose proof (PyStrFacts.split_pieces_keep_free "/" "?" segment Hseg) as Hs.
  destruct (PyStr.split "?" segment) as [|name pieces]; [congruence | ].
  exists name. inversion Hq; inversion Hs; subst. simpl. auto.
Qed.

(** For a URI ending in [/name] or [/name?options], with no slash in
    the options, the database name is [name]. *)
Theorem db_name_of_uri_path (pre name options : string) :
  PyStr.contains "/" name = false ->
  PyStr.contains "?" name = false ->
  PyStr.contains "/" options = false ->
  MongoDBClient.db_name_of_uri (pre +:+ String "/" name) = Some name
  /\ MongoDBClient.db_name_of_uri
       (pre +:+ String "/" (name +:+ String "?" options))
     = Some name.
Proof.
  intros Hslash Hq Hopt. split.
  - rewrite (db_name_of_last_segment _ _ Hslash).
    now rewrite (PyStrFacts.split_without _ _ Hq).
  - rewrite db_name_of_last_segment.
    + rewrite PyStrFacts.split_app, (PyStrFacts.split_without _ _ Hq).
      reflexivity.
    + clear Hq. induction name as [|c name IH]; simpl in *.
      * exact Hopt.
      * apply orb_false_iff in Hslash as [-> Hs]. now apply IH.
Qed.

Lemma db_name_of_uri_path_witness :
  MongoDBClient.db_name_of_uri "mongodb://localhost:27017/fitai"
  = Some "fitai"
  /\ MongoDBClient.db_name_of_uri
       "mongodb://db.example.com/fitai?retryWrites=true"
     = Some "fitai".
Proof.
  split.
  - exact (proj1 (db_name_of_uri_path "mongodb://localhost:27017" "fitai" ""
                    eq_refl eq_refl eq_refl)).
  - exact (proj2 (db_name_of_uri_path "mongodb://db.example.com" "fitai"
                    "retryWrites=true" eq_refl eq_refl eq_refl)).
Defined.

(** A URI that names no database, [scheme://host:port], makes the host
    and port the database name; one that ends in a slash, or whose last
    segment starts the options, makes it the empty string. *)
Theorem db_name_of_uri_no_path (scheme hostport options : string) :
  PyStr.contains "/" hostport = false ->
  PyStr.contains "?" hostport = false ->
  PyStr.contains "/" options = false ->
  MongoDBClient.db_name_of_uri (scheme +:+ "://" +:+ hostport)
  = Some hostport
  /\ MongoDBClient.db_name_of_uri (scheme +:+ "://" +:+ hostport +:+ "/")
     = Some ""
  /\ MongoDBClient.db_name_of_uri
       (scheme +:+ "://" +:+ hostport +:+ "/?" +:+ options)
     = Some "".
Proof.
  intros Hh Hq Ho.
  split; [ | split].
  - change (scheme +:+ "://" +:+ hostport)
      with (scheme +:+ (":/" +:+ String "/" hostport)).
    rewrite <- PyStrFacts.app_assoc.
    rewrite (db_name_of_last_segment _ _ Hh).
    now rewrite (PyStrFacts.split_without _ _ Hq).
  - rewrite <- !PyStrFacts.app_assoc.
    now rewrite (db_name_of_last_segment _ "" eq_refl).
  - change ("/?" +:+ options) with (String "/" (String "?" options)).
    rewrite <- !PyStrFacts.app_assoc.
    rewrite (db_name_of_last_segment _ (String "?" options));
      [reflexivity | exact Ho].
Qed.

Lemma db_name_of_uri_no_path_witness :
  MongoDBClient.db_name_of_uri "mongodb://localhost:27017"
  = Some "localhost:27017"
  /\ MongoDBClient.db_name_of_uri "mongodb://localhost:27017/" = Some "".
Proof.
  destruct (db_name_of_uri_no_path "mongodb" "localhost:27017" ""
              eq_refl eq_refl eq_refl) as (H1 & H2 & _).
  exact (conj H1 H2).
Defined.

(** ** Connecting and disconnecting *)

Section Client_state.

Context {Client Database : Type}.
Variable AsyncIOMotorClient : string -> option Client.
Variable getitem : Client -> string -> option Database.

Local Abbreviation connect :=
  (MongoDBClient.connect Client Database AsyncIOMotorClient getitem).
Local Abbreviation disconnect := (MongoDBClient.disconnect Client Database).
Local Abbreviation run :=
  (MongoDBClient.run Client Database AsyncIOMotorClient getitem).
Local Abbreviation initial := (MongoDBClient.initial Client Database).

(** With a client in place, [connect] returns at once. *)
Lemma connect_connected (uri : string) (ping : MongoDBClient.ping_result)
    (s : MongoDBClient.state Client Database) :
  MongoDBClient.client _ _ s <> None ->
  connect uri ping s = (s, [], MongoDBClient.Returned).
Proof.
  unfold MongoDBClient.connect.
  destruct (MongoDBClient.client _ _ s); [reflexivity | congruence].
Qed.

(** A [connect] that raises after the client was constructed - at the
    indexing or at the ping - leaves that client in the class.  Every
    later [connect] then returns normally without building a client,
    choosing a database or pinging, so the failure is never retried and
    the database stays as the failed call left it. *)
Theorem failed_connect_sticks
    (uri : string) (ping : MongoDBClient.ping_result)
    (s s' : MongoDBClient.state Client Database)
    (events : list (MongoDBClient.event Client)) (e : MongoDBClient.exn)
    (c : Client) :
  MongoDBClient.client _ _ s = None ->
  AsyncIOMotorClient uri = Some c ->
  connect uri ping s = (s', events, MongoDBClient.Raised e) ->
  MongoDBClient.client _ _ s' = Some c
  /\ (forall uri' ping',
        connect uri' ping' s' = (s', [], MongoDBClient.Returned))
  /\ (forall name,
        MongoDBClient.db_name_of_uri uri = Some name ->
        getitem c name = None ->
        MongoDBClient.get_database _ _ s' = MongoDBClient.database _ _ s).
Proof.
  intros Hnone Hc Hrun.
  unfold MongoDBClient.connect in Hrun. rewrite Hnone, Hc in Hrun.
  assert (MongoDBClient.client _ _ s' = Some c) as Hs'.
  { destruct (MongoDBClient.db_name_of_uri uri) as [n|];
      [ | now inversion Hrun ].
    destruct (getitem c n); [ | now inversion Hrun ].
    destruct ping; now inversion Hrun. }
  split; [exact Hs' | split].
  - intros uri' ping'. apply connect_connected. congruence.
  - intros name Hname Hget. rewrite Hname, Hget in Hrun.
    now inversion Hrun.
Qed.


(** A [connect] that returns, starting without a client, has built the
    client, chosen the database named by the URI and pinged exactly
    once. *)
Theorem connect_fresh
    (uri : string) (ping : MongoDBClient.ping_result)
    (s s' : MongoDBClient.state Client Database)
    (events : list (MongoDBClient.event Client)) :
  MongoDBClient.client _ _ s = None ->
  connect uri ping s = (s', events, MongoDBClient.Returned) ->
  exists c name d,
    AsyncIOMotorClient uri = Some c
    /\ MongoDBClient.db_name_of_uri uri = Some name
    /\ getitem c name = Some d
    /\ ping = MongoDBClient.PingOk
    /\ s' = MongoDBClient.State _ _ (Some c) (Some d)
    /\ MongoDBClient.get_database _ _ s' = Some d
    /\ events = [MongoDBClient.Ping _ c].
Proof.
  intros Hnone Hrun. unfold MongoDBClient.connect in Hrun.
  rewrite Hnone in Hrun.
  destruct (AsyncIOMotorClient uri) as [c|]; [ | discriminate].
  destruct (MongoDBClient.db_name_of_uri uri) as [n|]; [ | discriminate].
  destruct (getitem c n) as [d|] eqn:Hd; [ | discriminate].
  destruct ping; try discriminate.
  injection Hrun as <- <-.
  exists c, n, d. repeat split; assumption.
Qed.


(** A call keeps the database set only together with a client. *)
Lemma step_invariant
    (s : MongoDBClient.state Client Database) (o : MongoDBClient.op) :
  (MongoDBClient.database _ _ s <> None ->
   MongoDBClient.client _ _ s <> None) ->
  MongoDBClient.database _ _
    (MongoDBClient.step _ _ AsyncIOMotorClient getitem s o).1.1 <> None ->
  MongoDBClient.client _ _
    (MongoDBClient.step _ _ AsyncIOMotorClient getitem s o).1.1 <> None.
Proof.
  destruct s as [cl db]. destruct o as [uri ping|]; simpl;
    unfold MongoDBClient.connect, MongoDBClient.disconnect; simpl.
  - destruct cl as [c0|]; simpl; [auto | ].
    destruct (AsyncIOMotorClient uri) as [c|]; simpl; [ | auto].
    destruct (MongoDBClient.db_name_of_uri uri) as [n|]; simpl;
      [ | discriminate].
    destruct (getitem c n); simpl; [ | discriminate].
    destruct ping; simpl; discriminate.
  - destruct cl as [c0|]; simpl; auto.
Qed.

(** Whatever calls were made since the class was defined, a database is
    only ever set together with a client. *)
Lemma run_invariant (ops : list (MongoDBClient.op)) :
  MongoDBClient.database _ _ (run ops initial) <> None ->
  MongoDBClient.client _ _ (run ops initial) <> None.
Proof.
  unfold MongoDBClient.run.
  generalize (MongoDBClient.initial Client Database),
    (fun H : MongoDBClient.database _ _ (MongoDBClient.initial Client Database)
             <> None => False_ind (MongoDBClient.client _ _ initial <> None)
                          (H eq_refl)).
  induction ops as [|o ops IH]; intros s Hs; [exact Hs | ].
  simpl. apply IH. now apply step_invariant.
Qed.

(** After any sequence of calls, [disconnect] closes the client if
    there is one and leaves the class as it was defined:
    [get_database()] returns [None] and the next [connect] starts
    afresh. *)
Theorem disconnect_resets (ops : list (MongoDBClient.op)) :
  let s := run ops initial in
  (disconnect s).1.1 = initial
  /\ MongoDBClient.get_database _ _ (disconnect s).1.1 = None
  /\ (disconnect s).1.2
     = match MongoDBClient.client _ _ s with
       | Some c => [MongoDBClient.Close _ c]
       | None => []
       end
  /\ disconnect (disconnect s).1.1
     = (initial, [], MongoDBClient.Returned).
Proof.
  intros s. pose proof (run_invariant ops) as Hinv. fold s in Hinv.
  assert ((disconnect s).1.1 = initial) as Hreset.
  { unfold MongoDBClient.disconnect.
    destruct s as [[c|] [d|]]; simpl in *; try reflexivity.
    exfalso. apply Hinv; congruence. }
  rewrite Hreset. repeat split.
  unfold MongoDBClient.disconnect.
  destruct (MongoDBClient.client _ _ s); reflexivity.
Qed.

End Client_state.

Lemma failed_connect_sticks_witness :
  let new_client := fun uri : string => Some uri in
  let index := fun (c name : string) => Some (c, name) in
  let s' :=
    (MongoDBClient.connect string (string * string) new_client index
       "mongodb://localhost:27017/fitai" MongoDBClient.PingConnectionFailure
       (MongoDBClient.initial _ _)).1.1 in
  MongoDBClient.client _ _ s' = Some "mongodb://localhost:27017/fitai"
  /\ MongoDBClient.get_database _ _ s'
     = Some ("mongodb://localhost:27017/fitai", "fitai")
  /\ MongoDBClient.connect string (string * string) new_client index
       "mongodb://localhost:27017/fitai" MongoDBClient.PingOk s'
     = (s', [], MongoDBClient.Returned).
Proof.
  intros new_client index s'.
  destruct (failed_connect_sticks new_client index
              "mongodb://localhost:27017/fitai"
              MongoDBClient.PingConnectionFailure
              (MongoDBClient.initial _ _) s'
              [MongoDBClient.Ping _ "mongodb://localhost:27017/fitai"]
              MongoDBClient.ConnectionFailure
              "mongodb://localhost:27017/fitai"
              eq_refl eq_refl eq_refl) as (Hc & Hagain & _).
  split; [exact Hc | split; [reflexivity | apply Hagain]].
Defined.

Lemma connect_fresh_witness :
  exists c name d,
    Some "mongodb://localhost:27017/fitai" = Some c
    /\ MongoDBClient.db_name_of_uri "mongodb://localhost:27017/fitai"
       = Some name
    /\ Some (c, name) = Some d
    /\ d = ("mongodb://localhost:27017/fitai", "fitai").
Proof.
  destruct (connect_fresh (fun uri : string => Some uri)
              (fun c name : string => Some (c, name))
              "mongodb://localhost:27017/fitai" MongoDBClient.PingOk
              (MongoDBClient.initial _ _)
              (MongoDBClient.State _ _
                 (Some "mongodb://localhost:27017/fitai")
                 (Some ("mongodb://localhost:27017/fitai", "fitai")))
              [MongoDBClient.Ping _ "mongodb://localhost:27017/fitai"]
              eq_refl eq_refl)
    as (c & name & d & Hc & Hn & Hd & _ & Hs & _).
  exists c, name, d. repeat split; try assumption.
  now injection Hs as _ <-.
Defined.
